(** * SmartHome cloud control: the shared state document, the timer
    watcher, the REST routes that write the document, the ESP32 presence
    tracker and the firmware's output engine.

    Sources embedded here:
    - [src/test-firebase.js], second document: the server revision with
      the timer watcher (called "the watcher revision" below);
    - [src/server.js]: the earlier server revision, whose [executeTimer]
      arms the countdown itself and whose timer route knows three devices;
    - [src/unnamed/part_000]: the ESP32 sketch ([hardwareEngine]).

    Modelling conventions.
    - The Firebase document at [smartHomeState] is a finite map from child
      keys to JSON values; a child that is [null] is an absent key.
    - JavaScript numbers that hold millisecond timestamps and durations are
      integers ([Z]); every [Date.now()] call of the source is a separate
      clock reading passed to the handler in source order.
    - A route is a function from the server state to the new state and the
      HTTP reply.  Store operations are total (a transport failure, the
      500 replies of the source, is outside the model).
    - The Node timer queue is explicit: [setTimeout] allocates a handle in
      [timeouts], [clearTimeout] removes it, and an expiry runs the stored
      callback.  A [Timeout] keeps the delay that was passed to
      [setTimeout]; [nodeDelay] is the delay Node then waits.
    - Plain JavaScript objects used as maps ([activeTimers], the update
      objects) are finite maps of their own keys; what a read or an
      assignment does through [Object.prototype] is written out
      ([OBJECT_PROTOTYPE_KEYS], [js_assign]).
    - Keys written to the store are single child names.  Firebase reads a
      key with a slash as a path and refuses some characters; the theorems
      about records with arbitrary content therefore take their device
      names from the four device keys of the document. *)

From stdpp Require Import gmap strings list fin_maps pretty.

Local Open Scope Z_scope.

(** ** JSON values of the state document *)

(** The Timer Record written under [smartHomeState/timer]. *)
Record TimerRecord := mkTimer {
  id : string;
  devices : list string;
  duration : Z;
  action : string;
  startedAt : Z;
  endsAt : Z;
  active : bool
}.

Inductive jvalue :=
  | JNull
  | JBool (b : bool)
  | JNum (n : Z)
  | JStr (s : string)
  | JTimer (t : TimerRecord).

#[global] Instance TimerRecord_eq_dec : EqDecision TimerRecord.
Proof. solve_decision. Defined.

#[global] Instance jvalue_eq_dec : EqDecision jvalue.
Proof. solve_decision. Defined.

(** JavaScript truthiness of [snap.val()]: an absent child reads as
    [null]. *)
Definition truthy (v : option jvalue) : bool :=
  match v with
  | None | Some JNull => false
  | Some (JBool b) => b
  | Some (JNum n) => negb (n =? 0)
  | Some (JStr s) => negb (String.eqb s EmptyString)
  | Some (JTimer _) => true
  end.

(** ** Store adapter: the three Firebase writes the routes use *)

(** [db.ref("smartHomeState/" + k).set(v)]: writing [null] removes the
    child. *)
Definition db_set_child (k : string) (v : jvalue)
    (doc : gmap string jvalue) : gmap string jvalue :=
  match v with
  | JNull => delete k doc
  | _ => <[k := v]> doc
  end.

(** One key of [update]: a key of the update object replaces the child (or
    removes it when the new value is [null]); a key the update object does
    not have keeps the stored child. *)
Definition apply_write (u d : option jvalue) : option jvalue :=
  match u with
  | Some JNull => None
  | Some v => Some v
  | None => d
  end.

(** [db.ref("smartHomeState").update(updates)]: one shallow key-wise
    merge. *)
Definition db_update (updates doc : gmap string jvalue) : gmap string jvalue :=
  merge apply_write updates doc.

(** ** Server process state *)

(** The closure handed to [setTimeout].  The watcher's callback captures
    the whole [timer] snapshot (test-firebase.js:220-229); the callback of
    the earlier [executeTimer] captures [id], [devices] and [action]
    (server.js:101-112). *)
Inductive Callback :=
  | WatcherExpiry (timer : TimerRecord)
  | DirectExpiry (tid : string) (devs : list string) (act : string).

(** The [Timeout] object [setTimeout] returns. *)
Record Timeout := mkTimeout {
  delay : Z;
  callback : Callback
}.

#[global] Instance Callback_eq_dec : EqDecision Callback.
Proof. solve_decision. Defined.

#[global] Instance Timeout_eq_dec : EqDecision Timeout.
Proof. solve_decision. Defined.

Record Server := mkServer {
  store : gmap string jvalue;      (* the document at smartHomeState *)
  activeTimers : gmap string nat;  (* let activeTimers = {}: timerId -> handle *)
  timeouts : gmap nat Timeout;     (* pending entries of the Node timer queue *)
  nextTimeout : nat                (* the next handle setTimeout hands out *)
}.

Definition with_store (doc : gmap string jvalue) (s : Server) : Server :=
  mkServer doc (activeTimers s) (timeouts s) (nextTimeout s).

(** [const defaultState = { led1: false, ..., timer: null }]. *)
Definition defaultState : gmap string jvalue :=
  <["led1" := JBool false]> (<["led2" := JBool false]> (<["led3" := JBool false]>
  (<["tv" := JBool false]> (<["mode" := JStr "normal"]> (<["kill" := JBool false]> ∅))))).

(** [clearTimeout(h)]. *)
Definition clearTimeout (h : nat) (q : gmap nat Timeout) : gmap nat Timeout :=
  delete h q.

(** [function clearAllTimers()]: every tracked handle is cleared and its
    entry deleted. *)
Definition clearAllTimers (s : Server) : Server :=
  mkServer (store s) ∅
    (map_fold (λ (_ : string) (h : nat) q, clearTimeout h q) (timeouts s) (activeTimers s))
    (nextTimeout s).


(** [o[k] = v] on a plain object.  ["__proto__"] is not a key of the
    object but the accessor of its prototype: assigning to it creates no
    own key (a primitive is ignored, an object becomes the prototype). *)
Definition js_assign {V : Type} (k : string) (v : V) (o : gmap string V) : gmap string V :=
  if decide (k = "__proto__") then o else <[k := v]> o.

(** [setTimeout(cb, ms)] followed by [activeTimers[tid] = <the handle>].
    The countdown is queued whatever [tid] is; the assignment tracks it
    under [tid] as [js_assign] says. *)
Definition armTimeout (tid : string) (ms : Z) (cb : Callback) (s : Server) : Server :=
  let h := nextTimeout s in
  mkServer (store s) (js_assign tid h (activeTimers s))
    (<[h := mkTimeout ms cb]> (timeouts s)) (S h).

(** [TIMEOUT_MAX] of Node's timers: 2^31 - 1. *)
Definition TIMEOUT_MAX : Z := 2147483647.

(** The delay Node waits for a [setTimeout(cb, ms)]: a delay below 1 or
    above [TIMEOUT_MAX] is replaced by 1. *)
Definition nodeDelay (ms : Z) : Z :=
  if decide (1 <= ms <= TIMEOUT_MAX) then ms else 1.

(** The property names every plain object inherits from
    [Object.prototype]; each reads as a truthy value (a function, or the
    prototype object for ["__proto__"]). *)
Definition OBJECT_PROTOTYPE_KEYS : list string :=
  ["constructor"; "__defineGetter__"; "__defineSetter__"; "hasOwnProperty";
   "__lookupGetter__"; "__lookupSetter__"; "isPrototypeOf"; "propertyIsEnumerable";
   "toString"; "valueOf"; "__proto__"; "toLocaleString"].

(** ** The timer's update object *)

(** [action === "on"]. *)
Definition is_on (act : string) : bool := bool_decide (act = "on").

(** [devs.forEach(d => { updates[d] = act === "on"; })] on [updates]. *)
Definition set_devices (devs : list string) (act : string)
    (updates : gmap string jvalue) : gmap string jvalue :=
  foldl (λ u d, js_assign d (JBool (is_on act)) u) updates devs.

(** [if (act === "on") updates.kill = false;] *)
Definition clear_kill_if_on (act : string)
    (updates : gmap string jvalue) : gmap string jvalue :=
  if is_on act then <["kill" := JBool false]> updates else updates.

(** The watcher's update object (test-firebase.js:213-216 and 222-225):
    the device writes, the kill write, then [updates.timer = null]. *)
Definition timerUpdates (timer : TimerRecord) : gmap string jvalue :=
  <["timer" := JNull]>
    (clear_kill_if_on (action timer) (set_devices (devices timer) (action timer) ∅)).

(** The earlier callback's update object (server.js:103-108): no [timer]
    key; the record is removed by a second write. *)
Definition directUpdates (devs : list string) (act : string) : gmap string jvalue :=
  clear_kill_if_on act (set_devices devs act ∅).

(** ** Timer watcher (test-firebase.js:201-234) *)

(** [timer && timer.active] on the snapshot's value. *)
Definition activeTimer (v : option jvalue) : option TimerRecord :=
  match v with
  | Some (JTimer t) => if active t then Some t else None
  | _ => None
  end.

(** [db.ref("smartHomeState/timer").on("value", async (snap) => ...)],
    one delivery; [now] is the handler's single [Date.now()].
    [if (activeTimers[timer.id])] is a truthiness test on a plain object:
    it holds for an own key (a [Timeout] is truthy) and for every name
    inherited from [Object.prototype]. *)
Definition onTimerValue (now : Z) (snap : option jvalue) (s : Server) : Server :=
  match activeTimer snap with
  | Some timer =>
      if decide (is_Some (activeTimers s !! id timer) ∨ id timer ∈ OBJECT_PROTOTYPE_KEYS)
      then s
      else
        let s1 := clearAllTimers s in
        let remaining := Z.max 0 (endsAt timer - now) in
        if decide (remaining <= 0) then
          with_store (db_update (timerUpdates timer) (store s1)) s1
        else
          armTimeout (id timer) remaining (WatcherExpiry timer) s1
  | None => clearAllTimers s
  end.

(** [delete activeTimers[tid]]. *)
Definition untrack (tid : string) (s : Server) : Server :=
  mkServer (store s) (delete tid (activeTimers s)) (timeouts s) (nextTimeout s).

(** The callback of an expired countdown, cut at its [await]s.  The
    watcher's callback issues the update, and after the [await] deletes
    its id from [activeTimers]; the earlier callback issues the update,
    then removes the record, then deletes its id.  Other events of the
    process can run between two segments. *)
Definition callbackSegments (cb : Callback) : list (Server → Server) :=
  match cb with
  | WatcherExpiry timer =>
      [ (λ s, with_store (db_update (timerUpdates timer) (store s)) s);
        untrack (id timer) ]
  | DirectExpiry tid devs act =>
      [ (λ s, with_store (db_update (directUpdates devs act) (store s)) s);
        (λ s, with_store (db_set_child "timer" JNull (store s)) s);
        untrack tid ]
  end.

(** The callback run to its end with no other event between its
    segments. *)
Definition runCallback (cb : Callback) (s : Server) : Server :=
  foldl (λ st segment, segment st) s (callbackSegments cb).

(** Expiry of the countdown with handle [h], up to the callback's first
    [await]: a cleared handle never fires; a pending one leaves the queue
    and the callback's first segment runs.  The segments still to run are
    returned. *)
Definition beginTimeout (h : nat) (s : Server) : Server * list (Server → Server) :=
  match timeouts s !! h with
  | None => (s, [])
  | Some tm =>
      let s1 := mkServer (store s) (activeTimers s) (delete h (timeouts s)) (nextTimeout s) in
      match callbackSegments (callback tm) with
      | [] => (s1, [])
      | first :: rest => (first s1, rest)
      end
  end.

(** Expiry of the countdown with handle [h] with the callback run to its
    end ([runCallback]): a cleared handle never fires; a pending one
    leaves the queue and runs its callback. *)
Definition fireTimeout (h : nat) (s : Server) : Server :=
  match timeouts s !! h with
  | None => s
  | Some tm =>
      runCallback (callback tm)
        (mkServer (store s) (activeTimers s) (delete h (timeouts s)) (nextTimeout s))
  end.

(** The change notifier handing the watcher the value the store holds. *)
Definition notifyTimer (now : Z) (s : Server) : Server :=
  onTimerValue now (store s !! "timer") s.

(** ** REST routes *)

(** [res.json(body)] or [res.status(400).json({ error })]. *)
Inductive Reply (A : Type) :=
  | Ok (body : A)
  | BadRequest (error : string).
Arguments Ok {A} body.
Arguments BadRequest {A} error.

(** [POST /api/toggle/:led] (server.js:172-186, test-firebase.js:276-290):
    reads the child, writes its negation to the child alone. *)
Definition toggle (led : string) (s : Server) : Server * Reply (string * bool) :=
  if decide (led ∈ ["led1"; "led2"; "led3"; "tv"]) then
    let newVal := negb (truthy (store s !! led)) in
    (with_store (db_set_child led (JBool newVal) (store s)) s, Ok (led, newVal))
  else (s, BadRequest "Invalid device. Use led1, led2, led3, or tv.").

(** [POST /api/mode/:mode] (server.js:188-201), commented in the source
    "removed disco to fix LED2 conflict". *)
Definition setMode (mode : string) (s : Server) : Server * Reply string :=
  if decide (mode ∈ ["normal"; "wave"; "pulse"]) then
    (with_store (db_set_child "mode" (JStr mode) (store s)) s, Ok mode)
  else (s, BadRequest "Invalid mode. Use normal, wave, or pulse.").

(** The update object of [POST /api/kill] (server.js:206-212). *)
Definition killUpdates : gmap string jvalue :=
  list_to_map [("led1", JBool false); ("led2", JBool false); ("led3", JBool false);
               ("kill", JBool true); ("mode", JStr "normal")].

(** [POST /api/kill]. *)
Definition kill (s : Server) : Server * Reply bool :=
  (with_store (db_update killUpdates (store s)) s, Ok true).

(** The update object of [GET /do/emergency] (test-firebase.js:536). *)
Definition emergencyUpdates : gmap string jvalue :=
  list_to_map [("led1", JBool false); ("led2", JBool false); ("led3", JBool false);
               ("tv", JBool false); ("kill", JBool true)].

(** [GET /do/emergency]. *)
Definition doEmergency (s : Server) : Server :=
  with_store (db_update emergencyUpdates (store s)) s.

(** [const DEVICE_ALIASES = {...}] (test-firebase.js:454-459). *)
Definition DEVICE_ALIASES : gmap string string :=
  list_to_map [("living-room", "led1"); ("livingroom", "led1"); ("lounge", "led1");
               ("led1", "led1"); ("bedroom", "led2"); ("bed", "led2"); ("led2", "led2");
               ("kitchen", "led3"); ("led3", "led3"); ("tv", "tv"); ("television", "tv")].

(** [GET /do/:device/:action] (test-firebase.js:477-499); [device] and
    [act] are the two path parameters after [toLowerCase()].  One update
    object carries the device write and, when the device is turned on, the
    kill write.  The reply (an HTML page or JSON) is reduced to the device
    key and the value written. *)
Definition doDeviceAction (device act : string) (s : Server) : Server * Reply (string * bool) :=
  match DEVICE_ALIASES !! device with
  | None => (s, BadRequest "Unknown Device")
  | Some deviceKey =>
      if decide (act ∈ ["on"; "off"; "toggle"]) then
        let newVal :=
          if decide (act = "toggle") then negb (truthy (store s !! deviceKey))
          else is_on act in
        let updates : gmap string jvalue := {[deviceKey := JBool newVal]} in
        let updates := if newVal then <["kill" := JBool false]> updates else updates in
        (with_store (db_update updates (store s)) s, Ok (deviceKey, newVal))
      else (s, BadRequest "Bad Action")
  end.

(** *** Scheduling *)

(** The JSON body of [POST /api/timer/start] at the types of the
    documented interface: each field may be missing, [devices] is an array
    of strings, [duration] an integer number of seconds, [action] a
    string.  Bodies of other JSON types (a [duration] that is a string, a
    boolean or an object, which the route's guard compares after
    coercion) are not values of this type: what is proved about the route
    is proved for bodies of these types. *)
Record TimerRequest := mkRequest {
  body_devices : option (list string);
  body_duration : option Z;
  body_action : option string
}.

(** Reply of a successful scheduling request:
    [{ success: true, timerId, devices, duration, action }]. *)
Record Scheduled := mkScheduled {
  timerId : string;
  sch_devices : list string;
  sch_duration : Z;
  sch_action : string
}.

(** [`timer_${Date.now()}`]. *)
Definition timerIdAt (now : Z) : string := "timer_" +:+ pretty now.

(** The record [executeTimer] stores; [tStart] and [tEnd] are its two
    [Date.now()] readings ([startedAt: Date.now()],
    [endsAt: Date.now() + (duration * 1000)]). *)
Definition timerRecordOf (tid : string) (devs : list string) (dur : Z) (act : string)
    (tStart tEnd : Z) : TimerRecord :=
  mkTimer tid devs dur act tStart (tEnd + dur * 1000) true.

(** [async function executeTimer(timerData)] of the watcher revision
    (test-firebase.js:168-180): it only stores the record; the watcher
    schedules. *)
Definition executeTimer (tStart tEnd : Z) (tid : string) (devs : list string)
    (dur : Z) (act : string) (s : Server) : Server :=
  with_store (db_set_child "timer" (JTimer (timerRecordOf tid devs dur act tStart tEnd))
                (store s)) s.

(** The three guards on the body, shared by both revisions, in source
    order; [known] is the device list of the fourth guard and [msg] its
    error text. *)
Definition validateRequest (known : list string) (msg : string) (req : TimerRequest)
    : Reply (list string * Z * string) :=
  match body_devices req with
  | None | Some [] => BadRequest "devices must be a non-empty array of led names"
  | Some devs =>
      match body_duration req with
      | None => BadRequest "duration must be between 1 and 86400 seconds"
      | Some dur =>
          if decide (dur = 0 ∨ dur < 1 ∨ dur > 86400) then
            BadRequest "duration must be between 1 and 86400 seconds"
          else
            match body_action req with
            | None => BadRequest "action must be 'on' or 'off'"
            | Some act =>
                if decide (act ∈ ["on"; "off"]) then
                  if decide (Forall (λ d, d ∈ known) devs) then Ok (devs, dur, act)
                  else BadRequest msg
                else BadRequest "action must be 'on' or 'off'"
            end
      end
  end.

(** The request the interface documents, in the spec's words: [devices]
    present, non-empty and drawn from [known]; [duration] present and
    within 1..86400 seconds; [action] one of ["on"], ["off"].  Compared
    with [validateRequest] above. *)
Definition validRequest (known : list string) (req : TimerRequest) : Prop :=
  ∃ devs dur act,
    body_devices req = Some devs ∧ devs ≠ [] ∧ Forall (λ d, d ∈ known) devs ∧
    body_duration req = Some dur ∧ 1 <= dur <= 86400 ∧
    body_action req = Some act ∧ (act = "on" ∨ act = "off").

(** [POST /api/timer/start] of the watcher revision
    (test-firebase.js:391-416).  [tId] is the reading behind the timer id;
    [tStart] and [tEnd] are [executeTimer]'s. *)
Definition timerStart (tId tStart tEnd : Z) (req : TimerRequest) (s : Server)
    : Server * Reply Scheduled :=
  match validateRequest ["led1"; "led2"; "led3"; "tv"]
          "Invalid device names. Use led1, led2, led3, tv." req with
  | BadRequest e => (s, BadRequest e)
  | Ok (devs, dur, act) =>
      let s1 := clearAllTimers s in
      let tid := timerIdAt tId in
      (executeTimer tStart tEnd tid devs dur act s1, Ok (mkScheduled tid devs dur act))
  end.

(** [POST /api/timer/cancel]. *)
Definition timerCancel (s : Server) : Server :=
  let s1 := clearAllTimers s in
  with_store (db_set_child "timer" JNull (store s1)) s1.

(** [Math.ceil(x / d)] on integers. *)
Definition ceilDiv (x d : Z) : Z := - ((- x) / d).

(** Reply of [GET /api/timer/status]: [{ active: false }] or
    [{ active: true, ...timer, remaining }]. *)
Inductive TimerStatus :=
  | NoActiveTimer
  | ActiveTimer (timer : TimerRecord) (remaining : Z).

(** [GET /api/timer/status] (server.js:326-344, test-firebase.js:430-448). *)
Definition timerStatus (now : Z) (s : Server) : Server * TimerStatus :=
  match activeTimer (store s !! "timer") with
  | Some timer =>
      let remaining := Z.max 0 (ceilDiv (endsAt timer - now) 1000) in
      if decide (remaining <= 0) then
        (with_store (db_set_child "timer" JNull (store s)) s, NoActiveTimer)
      else (s, ActiveTimer timer remaining)
  | None => (s, NoActiveTimer)
  end.

(** ** The earlier revision's scheduling path (src/server.js) *)
Module V1.

(** [async function executeTimer(timerData)] (server.js:89-113): stores
    the record and arms the countdown itself for [duration * 1000] ms. *)
Definition executeTimer (tStart tEnd : Z) (tid : string) (devs : list string)
    (dur : Z) (act : string) (s : Server) : Server :=
  let s1 :=
    with_store (db_set_child "timer" (JTimer (timerRecordOf tid devs dur act tStart tEnd))
                  (store s)) s in
  armTimeout tid (dur * 1000) (DirectExpiry tid devs act) s1.

(** [POST /api/timer/start] (server.js:287-312): the device guard lists
    [led1], [led2], [led3]. *)
Definition timerStart (tId tStart tEnd : Z) (req : TimerRequest) (s : Server)
    : Server * Reply Scheduled :=
  match validateRequest ["led1"; "led2"; "led3"]
          "Invalid device names. Use led1, led2, led3." req with
  | BadRequest e => (s, BadRequest e)
  | Ok (devs, dur, act) =>
      let s1 := clearAllTimers s in
      let tid := timerIdAt tId in
      (executeTimer tStart tEnd tid devs dur act s1, Ok (mkScheduled tid devs dur act))
  end.

End V1.

(** ** ESP32 heartbeat tracking (server.js:43-64 and 229-253) *)

(** [let esp32Status = {...}].  [lastSeen] holds an ISO-8601 string in the
    source and is only ever read back through [new Date(...).getTime()];
    it is kept here as the millisecond instant that string denotes. *)
Record Esp32Status := mkStatus {
  online : bool;
  lastSeen : option Z;
  ip : option string;
  rssi : option Z;
  uptime : option Z;
  freeHeap : option Z
}.

Definition initialStatus : Esp32Status :=
  mkStatus false None None None None None.

(** [const ESP_TIMEOUT_MS = 30000;] *)
Definition ESP_TIMEOUT_MS : Z := 30000.

Definition set_online (b : bool) (st : Esp32Status) : Esp32Status :=
  mkStatus b (lastSeen st) (ip st) (rssi st) (uptime st) (freeHeap st).

(** [x || null] on an optional number: [0] is falsy. *)
Definition num_or_null (x : option Z) : option Z :=
  match x with
  | Some 0 => None
  | _ => x
  end.

(** [ip || req.ip]: a missing or empty string falls back. *)
Definition str_or (x : option string) (fallback : string) : string :=
  match x with
  | None | Some EmptyString => fallback
  | Some v => v
  end.

(** The heartbeat's JSON body [{ ip, rssi, uptime, freeHeap }]. *)
Record HeartbeatBody := mkHeartbeat {
  hb_ip : option string;
  hb_rssi : option Z;
  hb_uptime : option Z;
  hb_freeHeap : option Z
}.

(** [POST /api/esp/heartbeat]: the whole status object is replaced;
    [now] is the instant of [new Date()]. *)
Definition heartbeat (now : Z) (reqIp : string) (b : HeartbeatBody)
    (_ : Esp32Status) : Esp32Status :=
  mkStatus true (Some now) (Some (str_or (hb_ip b) reqIp)) (num_or_null (hb_rssi b))
    (num_or_null (hb_uptime b)) (num_or_null (hb_freeHeap b)).

(** The body of the 5-second [setInterval] check (server.js:57-64). *)
Definition espTimeoutCheck (now : Z) (st : Esp32Status) : Esp32Status :=
  match lastSeen st with
  | Some seen =>
      let elapsed := now - seen in
      if decide (elapsed > ESP_TIMEOUT_MS) then set_online false st else st
  | None => st
  end.

(** [GET /api/esp/status] (server.js:246-253): rechecks freshness, then
    replies with the status object, which is also the new state. *)
Definition espStatus (now : Z) (st : Esp32Status) : Esp32Status :=
  match lastSeen st with
  | Some seen =>
      let elapsed := now - seen in
      set_online (bool_decide (elapsed < ESP_TIMEOUT_MS)) st
  | None => st
  end.

(** The events that touch [esp32Status], each stamped with the clock
    reading it makes. *)
Inductive PresenceEvent :=
  | EvHeartbeat (reqIp : string) (b : HeartbeatBody)
  | EvTimeoutCheck
  | EvStatusQuery.

Definition presenceStep (st : Esp32Status) (e : Z * PresenceEvent) : Esp32Status :=
  match e.2 with
  | EvHeartbeat reqIp b => heartbeat e.1 reqIp b st
  | EvTimeoutCheck => espTimeoutCheck e.1 st
  | EvStatusQuery => espStatus e.1 st
  end.

Definition presenceRun (st : Esp32Status) (tr : list (Z * PresenceEvent)) : Esp32Status :=
  foldl presenceStep st tr.

Definition isHeartbeat (e : PresenceEvent) : bool :=
  match e with
  | EvHeartbeat _ _ => true
  | _ => false
  end.

(** The trace's clock readings never go back, starting from [t0]. *)
Fixpoint clockOrdered (t0 : Z) (tr : list (Z * PresenceEvent)) : Prop :=
  match tr with
  | [] => True
  | e :: tr' => t0 <= e.1 ∧ clockOrdered e.1 tr'
  end.

(** The state is consistent with the clock reading [now] of the last
    event: when it says offline after a heartbeat, the timeout has been
    reached. *)
Definition presenceInv (now : Z) (st : Esp32Status) : Prop :=
  online st = false → ∀ seen, lastSeen st = Some seen → ESP_TIMEOUT_MS <= now - seen.

(** ** Firmware output engine (src/unnamed/part_000) *)
Module Firmware.

(** The sketch's globals and the three GPIO output levels. *)
Record State := mkState {
  led1 : bool;
  led2 : bool;
  led3 : bool;
  killSwitch : bool;
  mode : string;
  lastAnim : Z;      (* unsigned long, 32 bits on the ESP32 *)
  waveStep : Z;
  pulse : bool;
  pinLED1 : bool;
  pinLED2 : bool;
  pinLED3 : bool
}.

(** The three [digitalWrite] calls of one branch. *)
Definition writePins (a b c : bool) (f : State) : State :=
  mkState (led1 f) (led2 f) (led3 f) (killSwitch f) (mode f) (lastAnim f)
    (waveStep f) (pulse f) a b c.

(** Unsigned 32-bit subtraction [millis() - lastAnim]. *)
Definition usub32 (a b : Z) : Z := (a - b) mod 2 ^ 32.

(** [void hardwareEngine()] (part_000:203-244).  [millis1] and [millis2]
    are the two [millis()] readings of the animation branch (the frame
    test, then [lastAnim = millis()]); [r1], [r2], [r3] are the three
    [random(0,2)] draws of the disco branch. *)
Definition hardwareEngine (millis1 millis2 : Z) (r1 r2 r3 : bool) (f : State) : State :=
  if killSwitch f then writePins false false false f
  else if decide (mode f = "normal") then writePins (led1 f) (led2 f) (led3 f) f
  else if decide (usub32 millis1 (lastAnim f) < 200) then f
  else
    let f := mkState (led1 f) (led2 f) (led3 f) (killSwitch f) (mode f) millis2
               (waveStep f) (pulse f) (pinLED1 f) (pinLED2 f) (pinLED3 f) in
    if decide (mode f = "wave") then
      let g := writePins (bool_decide (waveStep f = 0)) (bool_decide (waveStep f = 1))
                 (bool_decide (waveStep f = 2)) f in
      mkState (led1 g) (led2 g) (led3 g) (killSwitch g) (mode g) (lastAnim g)
        (Z.rem (waveStep g + 1) 3) (pulse g) (pinLED1 g) (pinLED2 g) (pinLED3 g)
    else if decide (mode f = "pulse") then
      let p := negb (pulse f) in
      mkState (led1 f) (led2 f) (led3 f) (killSwitch f) (mode f) (lastAnim f)
        (waveStep f) p p p p
    else if decide (mode f = "disco") then writePins r1 r2 r3 f
    else f.

End Firmware.

(** ** Further routes of the watcher revision (src/test-firebase.js) *)

(** [async function initializeDatabase()] (test-firebase.js:183-195):
    [snap.exists()] is false exactly for the empty document. *)
Definition initializeDatabase (s : Server) : Server :=
  if decide (store s = ∅) then with_store defaultState s else s.

(** [GET /api/state]: [snap.val() || defaultState]. *)
Definition getState (s : Server) : gmap string jvalue :=
  if decide (store s = ∅) then defaultState else store s.

(** [POST /api/reset]: [set(defaultState)], a full replace. *)
Definition reset (s : Server) : Server := with_store defaultState s.

(** The update objects of [POST /api/all-on] and [POST /api/all-off]
    (test-firebase.js:360-386). *)
Definition allOnUpdates : gmap string jvalue :=
  list_to_map [("led1", JBool true); ("led2", JBool true); ("led3", JBool true);
               ("kill", JBool false)].

Definition allOffUpdates : gmap string jvalue :=
  list_to_map [("led1", JBool false); ("led2", JBool false); ("led3", JBool false)].

Definition allOn (s : Server) : Server := with_store (db_update allOnUpdates (store s)) s.

Definition allOff (s : Server) : Server := with_store (db_update allOffUpdates (store s)) s.

(** The update objects of [GET /do/all-on], [/do/all-off], [/do/lights-on]
    and [/do/lights-off] (test-firebase.js:502-531). *)
Definition doAllOnUpdates : gmap string jvalue :=
  list_to_map [("led1", JBool true); ("led2", JBool true); ("led3", JBool true);
               ("tv", JBool true); ("kill", JBool false)].

Definition doAllOffUpdates : gmap string jvalue :=
  list_to_map [("led1", JBool false); ("led2", JBool false); ("led3", JBool false);
               ("tv", JBool false)].

Definition doLightsOnUpdates : gmap string jvalue :=
  list_to_map [("led1", JBool true); ("led2", JBool true); ("led3", JBool true);
               ("kill", JBool false)].

Definition doLightsOffUpdates : gmap string jvalue :=
  list_to_map [("led1", JBool false); ("led2", JBool false); ("led3", JBool false)].

Definition doAllOn (s : Server) : Server := with_store (db_update doAllOnUpdates (store s)) s.

Definition doAllOff (s : Server) : Server := with_store (db_update doAllOffUpdates (store s)) s.

Definition doLightsOn (s : Server) : Server :=
  with_store (db_update doLightsOnUpdates (store s)) s.

Definition doLightsOff (s : Server) : Server :=
  with_store (db_update doLightsOffUpdates (store s)) s.

(** [GET /do/timer/:device/:duration/:action] (test-firebase.js:542-560).
    [device] and [act] are the path parameters after [toLowerCase()];
    [duration] is the value of [parseInt(req.params.duration)], [None] for
    [NaN].  The three clock readings are those of the id, [startedAt] and
    [endsAt].  The route writes the record and does not touch
    [activeTimers]; the reply page is reduced to the device key. *)
Definition doTimer (tId tStart tEnd : Z) (device : string) (dur : option Z) (act : string)
    (s : Server) : Server * Reply string :=
  match DEVICE_ALIASES !! device with
  | None => (s, BadRequest "Unknown Device")
  | Some deviceKey =>
      match dur with
      | None => (s, BadRequest "Bad Duration")
      | Some dur =>
          if decide (dur = 0 ∨ dur < 1 ∨ dur > 86400) then (s, BadRequest "Bad Duration")
          else if decide (act ∈ ["on"; "off"]) then
            (with_store
               (db_set_child "timer"
                  (JTimer (timerRecordOf (timerIdAt tId) [deviceKey] dur act tStart tEnd))
                  (store s)) s,
             Ok deviceKey)
          else (s, BadRequest "Bad Action")
      end
  end.

(** [GET /do/timer-cancel]. *)
Definition doTimerCancel (s : Server) : Server :=
  let s1 := clearAllTimers s in
  with_store (db_set_child "timer" JNull (store s1)) s1.

(** *** Google Home fulfillment (test-firebase.js:685-733) *)

(** One entry of [command.execution]: the command name and [params.on]. *)
Record Execution := mkExecution {
  exec_command : string;
  exec_on : bool
}.

(** One entry of [payload.commands]: the ids of [command.devices] and the
    executions. *)
Record Command := mkCommand {
  cmd_devices : list string;
  cmd_execution : list Execution
}.

(** The update object of one OnOff execution:
    [for (const id of ids) updates[id] = on; if (on) updates.kill = false]. *)
Definition onOffUpdates (ids : list string) (on : bool) : gmap string jvalue :=
  let updates := foldl (λ u i, js_assign i (JBool on) u) (∅ : gmap string jvalue) ids in
  if on then <["kill" := JBool false]> updates else updates.

(** Body of the inner loop: an OnOff execution writes its update object
    and pushes a result; any other command is skipped. *)
Definition executeOne (ids : list string) (acc : Server * list (list string * bool))
    (e : Execution) : Server * list (list string * bool) :=
  if decide (exec_command e = "action.devices.commands.OnOff") then
    (with_store (db_update (onOffUpdates ids (exec_on e)) (store acc.1)) acc.1,
     acc.2 ++ [(ids, exec_on e)])
  else acc.

(** [googleHome.onExecute]: the new state and the [results] list. *)
Definition onExecute (commands : list Command) (s : Server)
    : Server * list (list string * bool) :=
  foldl (λ acc c, foldl (executeOne (cmd_devices c)) acc (cmd_execution c)) (s, []) commands.

(** [!!state[k]] on the plain object [snap.val()]: the truthiness of the
    child [k] when the document has one, and otherwise of what the object
    inherits under that name from [Object.prototype]. *)
Definition truthy_property (state : gmap string jvalue) (k : string) : bool :=
  match state !! k with
  | Some v => truthy (Some v)
  | None => bool_decide (k ∈ OBJECT_PROTOTYPE_KEYS)
  end.

(** [googleHome.onQuery]: for each requested id,
    [devices[id] = { ..., on: !!state[id] }]. *)
Definition onQuery (ids : list string) (s : Server) : gmap string bool :=
  foldl (λ devs i, js_assign i (truthy_property (store s) i) devs)
    (∅ : gmap string bool) ids.

(** ** Presence traces *)

(** The clock reading of the last event of a presence trace ([t0] for the
    empty trace). *)
Definition lastReading (t0 : Z) (tr : list (Z * PresenceEvent)) : Z :=
  foldl (λ _ e, e.1) t0 tr.

(** * Properties *)

(** ** The store adapter *)

Lemma lookup_db_update (u d : gmap string jvalue) (k : string) :
  db_update u d !! k = apply_write (u !! k) (d !! k).
Proof.
  unfold db_update. rewrite lookup_merge.
  by destruct (u !! k), (d !! k).
Qed.


(** ** The timer's update object *)

Lemma lookup_js_assign_fold {V : Type} (g : string → V) (ids : list string)
    (m : gmap string V) (k : string) :
  foldl (λ u i, js_assign i (g i) u) m ids !! k =
    if decide (k ∈ ids ∧ k ≠ "__proto__") then Some (g k) else m !! k.
Proof.
  revert m. induction ids as [|i ids IH]; intros m; cbn [foldl].
  - rewrite decide_False; [done|]. intros [Hin _]. by apply elem_of_nil in Hin.
  - rewrite IH. destruct (decide (k ∈ ids ∧ k ≠ "__proto__")) as [[Hin Hp]|Hnin].
    + rewrite decide_True; [done|]. split; [by right | done].
    + unfold js_assign. destruct (decide (i = "__proto__")) as [->|Hip].
      * rewrite decide_False; [done|]. intros [[->|Hin]%elem_of_cons Hp]; [done|].
        by apply Hnin.
      * destruct (decide (i = k)) as [->|Hne].
        -- rewrite lookup_insert_eq, decide_True; [done|]. split; [by left | done].
        -- rewrite lookup_insert_ne by done. rewrite decide_False; [done|].
           intros [[->|Hin]%elem_of_cons Hp]; [done|]. by apply Hnin.
Qed.

Lemma js_assign_own_key {V : Type} (k : string) (v : V) (o : gmap string V) :
  k ∉ OBJECT_PROTOTYPE_KEYS → js_assign k v o = <[k := v]> o.
Proof.
  intros Hown. unfold js_assign. rewrite decide_False; [done|].
  intros ->. apply Hown. apply (bool_decide_unpack _). by vm_compute.
Qed.

(** Arming under an id of its own tracks the new handle under that id. *)
Lemma armTimeout_own_key (tid : string) (ms : Z) (cb : Callback) (s : Server) :
  tid ∉ OBJECT_PROTOTYPE_KEYS →
  armTimeout tid ms cb s =
    mkServer (store s) (<[tid := nextTimeout s]> (activeTimers s))
      (<[nextTimeout s := mkTimeout ms cb]> (timeouts s)) (S (nextTimeout s)).
Proof. intros Hown. unfold armTimeout. by rewrite js_assign_own_key. Qed.

Lemma lookup_set_devices (devs : list string) (act : string)
    (u : gmap string jvalue) (k : string) :
  set_devices devs act u !! k =
    if decide (k ∈ devs ∧ k ≠ "__proto__") then Some (JBool (is_on act)) else u !! k.
Proof. unfold set_devices. by rewrite (lookup_js_assign_fold (λ _, JBool (is_on act))). Qed.

(** The four device keys of the document are plain child names: none is
    a field the update object writes separately, and none is the
    prototype accessor. *)
Lemma device_is_plain_key (d : string) :
  d ∈ ["led1"; "led2"; "led3"; "tv"] → d ≠ "kill" ∧ d ≠ "timer" ∧ d ≠ "__proto__".
Proof.
  intros Hin. repeat (apply elem_of_cons in Hin as [-> | Hin]; [done|]).
  by apply elem_of_nil in Hin.
Qed.

Lemma timerUpdates_timer (timer : TimerRecord) :
  timerUpdates timer !! "timer" = Some JNull.
Proof. unfold timerUpdates. apply lookup_insert_eq. Qed.

Lemma timerUpdates_kill_on (timer : TimerRecord) :
  action timer = "on" → timerUpdates timer !! "kill" = Some (JBool false).
Proof.
  intros Hon. unfold timerUpdates, clear_kill_if_on, is_on.
  rewrite lookup_insert_ne by done.
  rewrite bool_decide_eq_true_2 by done. apply lookup_insert_eq.
Qed.

Lemma timerUpdates_other (timer : TimerRecord) (k : string) :
  k ≠ "timer" → k ≠ "kill" →
  timerUpdates timer !! k =
    if decide (k ∈ devices timer ∧ k ≠ "__proto__")
    then Some (JBool (is_on (action timer))) else None.
Proof.
  intros Ht Hk. unfold timerUpdates, clear_kill_if_on.
  rewrite lookup_insert_ne by done.
  destruct (is_on (action timer)) eqn:Hon.
  - rewrite lookup_insert_ne by done. rewrite lookup_set_devices, Hon.
    by case_decide.
  - rewrite lookup_set_devices, Hon. by case_decide.
Qed.

Lemma timerUpdates_device (timer : TimerRecord) (d : string) :
  d ∈ devices timer → d ∈ ["led1"; "led2"; "led3"; "tv"] →
  timerUpdates timer !! d = Some (JBool (is_on (action timer))).
Proof.
  intros Hin Hdev. destruct (device_is_plain_key d Hdev) as (Hk & Ht & Hp).
  rewrite timerUpdates_other by done. by rewrite decide_True.
Qed.

(** What one firing writes for a record whose devices are device keys:
    every listed device gets [action === "on"], [kill] is cleared when
    turning on, the [timer] child is removed. *)
Lemma fired_store (timer : TimerRecord) (doc : gmap string jvalue) :
  Forall (λ d, d ∈ ["led1"; "led2"; "led3"; "tv"]) (devices timer) →
  (∀ d, d ∈ devices timer →
        db_update (timerUpdates timer) doc !! d = Some (JBool (is_on (action timer)))) ∧
  (action timer = "on" → db_update (timerUpdates timer) doc !! "kill" = Some (JBool false)) ∧
  db_update (timerUpdates timer) doc !! "timer" = None.
Proof.
  intros Hall. split_and!.
  - intros d Hin. rewrite lookup_db_update, timerUpdates_device; [done | done |].
    by apply (proj1 (Forall_forall _ _) Hall).
  - intros Hon. by rewrite lookup_db_update, timerUpdates_kill_on.
  - by rewrite lookup_db_update, timerUpdates_timer.
Qed.

(** The ids the routes generate are not names of [Object.prototype]. *)
Lemma timerIdAt_own_key (now : Z) : timerIdAt now ∉ OBJECT_PROTOTYPE_KEYS.
Proof.
  unfold timerIdAt, OBJECT_PROTOTYPE_KEYS. intros Hin. simpl in Hin.
  repeat (apply elem_of_cons in Hin as [Heq | Hin]; [discriminate Heq|]).
  by apply elem_of_nil in Hin.
Qed.

(** ** The timer queue *)

(** With nothing tracked, [clearAllTimers] changes nothing. *)
Lemma clearAllTimers_untracked (s : Server) :
  activeTimers s = ∅ → clearAllTimers s = s.
Proof.
  destruct s as [doc act q n]; simpl. intros ->.
  unfold clearAllTimers; simpl. by rewrite map_fold_empty.
Qed.

(** A handle survives [clearAllTimers] exactly when no id tracks it. *)
Lemma clearAllTimers_timeouts (s : Server) (h : nat) :
  ((∃ k, activeTimers s !! k = Some h) ∧ timeouts (clearAllTimers s) !! h = None) ∨
  ((∀ k, activeTimers s !! k ≠ Some h) ∧
   timeouts (clearAllTimers s) !! h = timeouts s !! h).
Proof.
  destruct s as [doc act q n]; unfold clearAllTimers; simpl.
  induction act as [|k h' act Hk Hfst IH] using map_first_key_ind.
  - right. rewrite map_fold_empty. split; [|done].
    intros k. by rewrite lookup_empty.
  - rewrite map_fold_insert_first_key by done. unfold clearTimeout at 1 3.
    destruct (decide (h' = h)) as [->|Hne].
    + left. rewrite lookup_delete_eq. split; [|done].
      exists k. apply lookup_insert_eq.
    + rewrite lookup_delete_ne by done.
      destruct IH as [[[k0 Hk0] Hgone]|[Hno Hkept]].
      * left. split; [|done]. exists k0.
        rewrite lookup_insert_ne; [done|]. intros ->. congruence.
      * right. split; [|done]. intros k0.
        destruct (decide (k = k0)) as [->|Hkk].
        -- rewrite lookup_insert_eq. congruence.
        -- rewrite lookup_insert_ne by done. apply Hno.
Qed.

Lemma clearAllTimers_tracked_gone (s : Server) (k : string) (h : nat) :
  activeTimers s !! k = Some h → timeouts (clearAllTimers s) !! h = None.
Proof.
  intros Hk. destruct (clearAllTimers_timeouts s h) as [[_ Hgone]|[Hno _]]; [done|].
  by destruct (Hno k).
Qed.

Lemma clearAllTimers_untracked_kept (s : Server) (h : nat) :
  (∀ k, activeTimers s !! k ≠ Some h) →
  timeouts (clearAllTimers s) !! h = timeouts s !! h.
Proof.
  intros Hno. destruct (clearAllTimers_timeouts s h) as [[[k Hk] _]|[_ Hkept]]; [|done].
  by destruct (Hno k).
Qed.

(** [POST /api/timer/cancel]: the record is removed and every tracked
    countdown is cancelled. *)
Lemma timerCancel_clears (s : Server) :
  store (timerCancel s) !! "timer" = None ∧
  activeTimers (timerCancel s) = ∅ ∧
  ∀ k h, activeTimers s !! k = Some h → timeouts (timerCancel s) !! h = None.
Proof.
  unfold timerCancel; simpl. split_and!; [apply lookup_delete_eq | done |].
  intros k h Hk. by apply (clearAllTimers_tracked_gone s k).
Qed.

Lemma fireTimeout_watcher (h : nat) (ms : Z) (timer : TimerRecord) (s : Server) :
  timeouts s !! h = Some (mkTimeout ms (WatcherExpiry timer)) →
  fireTimeout h s =
    mkServer (db_update (timerUpdates timer) (store s))
      (delete (id timer) (activeTimers s)) (delete h (timeouts s)) (nextTimeout s).
Proof. intros Hh. unfold fireTimeout. by rewrite Hh. Qed.

(** The same expiry up to the callback's [await]: the handle has left the
    queue and the update is written; untracking the id is still to run. *)
Lemma beginTimeout_watcher (h : nat) (ms : Z) (timer : TimerRecord) (s : Server) :
  timeouts s !! h = Some (mkTimeout ms (WatcherExpiry timer)) →
  beginTimeout h s =
    (mkServer (db_update (timerUpdates timer) (store s))
       (activeTimers s) (delete h (timeouts s)) (nextTimeout s),
     [untrack (id timer)]).
Proof. intros Hh. unfold beginTimeout. by rewrite Hh. Qed.

(** ** The timer watcher *)

Lemma activeTimer_record (timer : TimerRecord) :
  active timer = true → activeTimer (Some (JTimer timer)) = Some timer.
Proof. intros Hact. simpl. by rewrite Hact. Qed.

(** A delivery for an id that is already tracked returns at once. *)
Lemma onTimerValue_tracked (now : Z) (timer : TimerRecord) (s : Server) :
  active timer = true → is_Some (activeTimers s !! id timer) →
  onTimerValue now (Some (JTimer timer)) s = s.
Proof.
  intros Hact Htr. unfold onTimerValue.
  rewrite activeTimer_record by done. rewrite decide_True; [done | by left].
Qed.


Lemma not_truthy_lookup (s : Server) (tid : string) :
  activeTimers s !! tid = None → tid ∉ OBJECT_PROTOTYPE_KEYS →
  ¬ (is_Some (activeTimers s !! tid) ∨ tid ∈ OBJECT_PROTOTYPE_KEYS).
Proof. intros Hun Hown [[h Hh]|Hin]; [congruence | done]. Qed.

(** The branch [remaining <= 0]: one merge-write, nothing armed. *)
Lemma onTimerValue_expired (now : Z) (timer : TimerRecord) (s : Server) :
  active timer = true → activeTimers s !! id timer = None →
  id timer ∉ OBJECT_PROTOTYPE_KEYS → endsAt timer <= now →
  onTimerValue now (Some (JTimer timer)) s =
    with_store (db_update (timerUpdates timer) (store s)) (clearAllTimers s).
Proof.
  intros Hact Hun Hown Hle. unfold onTimerValue.
  rewrite activeTimer_record by done.
  rewrite decide_False by (by apply not_truthy_lookup).
  cbv zeta. rewrite decide_True by lia. done.
Qed.

(** The other branch: one countdown of [endsAt - now] milliseconds. *)
Lemma onTimerValue_pending (now : Z) (timer : TimerRecord) (s : Server) :
  active timer = true → activeTimers s !! id timer = None →
  id timer ∉ OBJECT_PROTOTYPE_KEYS → now < endsAt timer →
  onTimerValue now (Some (JTimer timer)) s =
    armTimeout (id timer) (endsAt timer - now) (WatcherExpiry timer) (clearAllTimers s).
Proof.
  intros Hact Hun Hown Hlt. unfold onTimerValue.
  rewrite activeTimer_record by done.
  rewrite decide_False by (by apply not_truthy_lookup).
  cbv zeta. rewrite decide_False by lia.
  by replace (Z.max 0 (endsAt timer - now)) with (endsAt timer - now) by lia.
Qed.

Lemma nodeDelay_in_range (ms : Z) : 1 <= ms <= TIMEOUT_MAX → nodeDelay ms = ms.
Proof. intros Hr. unfold nodeDelay. by rewrite decide_True. Qed.

(** C1.  A snapshot with an active Timer Record whose id is not tracked.
    The record is one of the data model: its id is a token of its own
    (not a property name that [activeTimers] inherits from
    [Object.prototype], which the watcher's test reads as tracked), its
    devices are device keys of the document, and its deadline is at most
    2^31 - 1 ms ahead (the longest delay Node's [setTimeout] keeps).  The
    watcher computes [remaining = max(0, endsAt - now)].  When that is 0
    it applies the action in one merge-write (each listed device gets
    [true] iff the action is ["on"], [kill] becomes [false] when the
    action is ["on"], the [timer] child is removed) and arms nothing.
    Otherwise the document is left alone and exactly one countdown is
    tracked, under the record's id, armed with [remaining] milliseconds,
    which is the delay Node waits; whenever that countdown expires its
    callback performs the same merge-write (already at its first
    [await]), and the handle has left the queue. *)
Theorem watcher_fires_or_arms (now : Z) (timer : TimerRecord) (s : Server) :
  active timer = true →
  activeTimers s !! id timer = None →
  id timer ∉ OBJECT_PROTOTYPE_KEYS →
  Forall (λ d, d ∈ ["led1"; "led2"; "led3"; "tv"]) (devices timer) →
  endsAt timer - now <= TIMEOUT_MAX →
  let remaining := Z.max 0 (endsAt timer - now) in
  let s' := onTimerValue now (Some (JTimer timer)) s in
  (remaining = 0 →
     store s' = db_update (timerUpdates timer) (store s) ∧
     (∀ d, d ∈ devices timer → store s' !! d = Some (JBool (is_on (action timer)))) ∧
     (action timer = "on" → store s' !! "kill" = Some (JBool false)) ∧
     store s' !! "timer" = None ∧
     activeTimers s' = ∅) ∧
  (remaining ≠ 0 →
     store s' = store s ∧
     ∃ h, activeTimers s' = {[id timer := h]} ∧
          timeouts s' !! h = Some (mkTimeout remaining (WatcherExpiry timer)) ∧
          nodeDelay remaining = remaining ∧
          ∀ s2, timeouts s2 !! h = Some (mkTimeout remaining (WatcherExpiry timer)) →
                store (beginTimeout h s2).1 = db_update (timerUpdates timer) (store s2) ∧
                store (fireTimeout h s2) = db_update (timerUpdates timer) (store s2) ∧
                timeouts (fireTimeout h s2) !! h = None).
Proof.
  intros Hact Hun Hown Hdevs Hmax remaining s'. split.
  - intros Hzero. assert (endsAt timer <= now) as Hle by lia.
    subst s'. rewrite onTimerValue_expired by done. simpl.
    destruct (fired_store timer (store s) Hdevs) as (Hdev & Hkill & Htimer).
    split_and!; done.
  - intros Hpos. assert (now < endsAt timer) as Hlt by lia.
    assert (remaining = endsAt timer - now) as Hrem by lia.
    subst s'. rewrite onTimerValue_pending by done.
    rewrite armTimeout_own_key by done. simpl.
    split; [done|]. exists (nextTimeout s). rewrite Hrem. split_and!.
    + by rewrite insert_empty.
    + apply lookup_insert_eq.
    + apply nodeDelay_in_range. lia.
    + intros s2 Hs2. rewrite (beginTimeout_watcher _ _ _ _ Hs2).
      rewrite (fireTimeout_watcher _ _ _ _ Hs2). simpl.
      split_and!; [done | done | apply lookup_delete_eq].
Qed.

(** C1, on a run: a record due in 2000 ms arms a 2000 ms countdown for
    [led2], and its expiry turns [led2] off and removes the record. *)
Lemma watcher_fires_or_arms_witness :
  let timer := mkTimer "timer_1000" ["led2"] 5 "off" 1000 6000 true in
  let s := mkServer (<["led2" := JBool true]> (<["timer" := JTimer timer]> defaultState))
             ∅ ∅ 0 in
  let s' := onTimerValue 4000 (Some (JTimer timer)) s in
  store s' = store s ∧
  ∃ h, activeTimers s' = {[ "timer_1000" := h ]} ∧
       timeouts s' !! h = Some (mkTimeout 2000 (WatcherExpiry timer)) ∧
       store (fireTimeout h s') !! "led2" = Some (JBool false) ∧
       store (fireTimeout h s') !! "timer" = None.
Proof.
  intros timer s s'.
  assert (id timer ∉ OBJECT_PROTOTYPE_KEYS) as Hown.
  { apply (bool_decide_unpack _). by vm_compute. }
  assert (Forall (λ d, d ∈ ["led1"; "led2"; "led3"; "tv"]) (devices timer)) as Hdevs.
  { apply Forall_cons. split; [|by apply Forall_nil].
    apply (bool_decide_unpack _). by vm_compute. }
  assert (endsAt timer - 4000 <= TIMEOUT_MAX) as Hmax.
  { unfold TIMEOUT_MAX. simpl. lia. }
  destruct (watcher_fires_or_arms 4000 timer s eq_refl eq_refl Hown Hdevs Hmax)
    as [_ Harm].
  destruct Harm as (Hstore & h & Hact & Hq & _ & Hfire); [done|].
  split; [exact Hstore|]. exists h. split; [exact Hact|]. split; [exact Hq|].
  destruct (Hfire _ Hq) as (_ & Hdoc & _). fold s' in Hdoc. rewrite Hdoc.
  destruct (fired_store timer (store s') Hdevs) as (Hdev & _ & Htimer).
  split; [|exact Htimer].
  apply (Hdev "led2"). by left.
Defined.

(** Any number of deliveries of a tracked record, at any clock readings,
    leave the process as it was. *)
Lemma redundant_deliveries (timer : TimerRecord) (s : Server) (nows : list Z) :
  active timer = true → is_Some (activeTimers s !! id timer) →
  foldl (λ st now, onTimerValue now (Some (JTimer timer)) st) s nows = s.
Proof.
  intros Hact Htr. induction nows as [|now nows IH]; [done|].
  cbn [foldl]. by rewrite onTimerValue_tracked.
Qed.

(** Once the watcher has armed the countdown of a record, further
    deliveries of that record do not arm a second one. *)
Lemma armed_once (now : Z) (timer : TimerRecord) (s : Server) (nows : list Z) :
  active timer = true → activeTimers s !! id timer = None →
  id timer ∉ OBJECT_PROTOTYPE_KEYS → now < endsAt timer →
  let s1 := onTimerValue now (Some (JTimer timer)) s in
  foldl (λ st t, onTimerValue t (Some (JTimer timer)) st) s1 nows = s1.
Proof.
  intros Hact Hun Hown Hlt s1. apply redundant_deliveries; [done|].
  subst s1. rewrite onTimerValue_pending by done.
  rewrite armTimeout_own_key by done. simpl.
  rewrite lookup_insert_eq. by eexists.
Qed.

(** C4.  A snapshot with an active record whose id the process already
    tracks is ignored: the handler returns the state it was given, so the
    tracked handle, the pending queue (the existing countdown included) and
    the handle counter are unchanged, and no run of such redundant
    deliveries ever schedules the timer again. *)
Theorem watcher_ignores_tracked_id (now : Z) (timer : TimerRecord) (s : Server) (h : nat) :
  active timer = true →
  activeTimers s !! id timer = Some h →
  let s' := onTimerValue now (Some (JTimer timer)) s in
  s' = s ∧
  activeTimers s' !! id timer = Some h ∧
  timeouts s' !! h = timeouts s !! h ∧
  timeouts s' = timeouts s ∧
  nextTimeout s' = nextTimeout s ∧
  ∀ nows, foldl (λ st t, onTimerValue t (Some (JTimer timer)) st) s nows = s.
Proof.
  intros Hact Htr s'.
  assert (s' = s) as Hsame.
  { subst s'. apply onTimerValue_tracked; [done | by eexists]. }
  rewrite Hsame. split_and!; try done.
  intros nows. apply redundant_deliveries; [done | by eexists].
Qed.

(** C4, on a run: the record armed under handle 0 is delivered again one
    second later; the countdown of 2000 ms is still the only one. *)
Lemma watcher_ignores_tracked_id_witness :
  let timer := mkTimer "timer_1000" ["led2"] 5 "off" 1000 6000 true in
  let s := mkServer (<["timer" := JTimer timer]> defaultState)
             {[ "timer_1000" := 0%nat ]}
             {[ 0%nat := mkTimeout 2000 (WatcherExpiry timer) ]} 1 in
  onTimerValue 5000 (Some (JTimer timer)) s = s ∧
  timeouts (onTimerValue 5000 (Some (JTimer timer)) s) =
    {[ 0%nat := mkTimeout 2000 (WatcherExpiry timer) ]}.
Proof.
  intros timer s.
  destruct (watcher_ignores_tracked_id 5000 timer s 0 eq_refl eq_refl)
    as (Hsame & _ & _ & Hq & _).
  split; [exact Hsame | exact Hq].
Defined.



(** ** Routes that write device outputs, mode and kill *)

(** [POST /api/toggle/:led] writes the one child and nothing else: the
    [kill] child in particular keeps its value. *)
Lemma toggle_writes_one_child (led : string) (s : Server) (k : string) :
  k ≠ led → store (toggle led s).1 !! k = store s !! k.
Proof.
  intros Hne. unfold toggle. case_decide; [|done]. simpl.
  by rewrite lookup_insert_ne.
Qed.

(** [GET /do/:device/:action], the sibling of the toggle route: turning a
    device on writes [kill = false] in the same update object. *)
Lemma doDeviceAction_on_clears_kill (device deviceKey : string) (s : Server) :
  DEVICE_ALIASES !! device = Some deviceKey → deviceKey ≠ "kill" →
  store (doDeviceAction device "on" s).1 !! deviceKey = Some (JBool true) ∧
  store (doDeviceAction device "on" s).1 !! "kill" = Some (JBool false).
Proof.
  intros Hal Hne. unfold doDeviceAction. rewrite Hal. simpl.
  rewrite !lookup_db_update.
  rewrite lookup_insert_ne, lookup_singleton_eq, lookup_insert_eq; done.
Qed.

Lemma setMode_accepts (m : string) (s : Server) :
  m ∈ ["normal"; "wave"; "pulse"] →
  setMode m s = (with_store (<["mode" := JStr m]> (store s)) s, Ok m).
Proof. intros Hin. unfold setMode. by rewrite decide_True. Qed.

Lemma setMode_rejects (m : string) (s : Server) :
  m ∉ ["normal"; "wave"; "pulse"] →
  setMode m s = (s, BadRequest "Invalid mode. Use normal, wave, or pulse.").
Proof. intros Hin. unfold setMode. by rewrite decide_False. Qed.

(** A mode change writes the [mode] child only. *)
Lemma setMode_writes_mode_only (m : string) (s : Server) (k : string) :
  k ≠ "mode" → store (setMode m s).1 !! k = store s !! k.
Proof.
  intros Hne. unfold setMode. case_decide; [|done]. simpl.
  by rewrite lookup_insert_ne.
Qed.

(** C2, as the claim states it, fails: with [kill] set, toggling [led1]
    from off to on stores [led1 = true] and leaves [kill = true], and an
    accepted mode change leaves [kill = true] as well. *)
Lemma toggle_and_mode_keep_kill :
  let s := mkServer (<["kill" := JBool true]> defaultState) ∅ ∅ 0 in
  store s !! "led1" = Some (JBool false) ∧
  store (toggle "led1" s).1 !! "led1" = Some (JBool true) ∧
  store (toggle "led1" s).1 !! "kill" = Some (JBool true) ∧
  (setMode "wave" s).2 = Ok "wave" ∧
  store (setMode "wave" s).1 !! "kill" = Some (JBool true).
Proof. intros s. by vm_compute. Qed.

(** C2, amended.  A timer firing with [action = "on"], in the watcher's
    immediate branch as on expiry of its countdown, writes one update
    object that holds [kill = false] together with [true] for each of its
    devices, so after that single write [kill] is [false] and each device
    is [true].  (The record's devices are device keys of the document;
    the immediate branch is taken for an id that is not tracked and is not
    a property name [activeTimers] inherits from [Object.prototype].)  A
    mode change writes the [mode] child only: it sets no device output and
    leaves [kill] as it was. *)
Theorem timer_on_clears_kill_in_same_update (timer : TimerRecord) :
  action timer = "on" →
  Forall (λ d, d ∈ ["led1"; "led2"; "led3"; "tv"]) (devices timer) →
  timerUpdates timer !! "kill" = Some (JBool false) ∧
  (∀ d, d ∈ devices timer → timerUpdates timer !! d = Some (JBool true)) ∧
  (∀ now s, active timer = true → activeTimers s !! id timer = None →
            id timer ∉ OBJECT_PROTOTYPE_KEYS → endsAt timer <= now →
            store (onTimerValue now (Some (JTimer timer)) s) =
              db_update (timerUpdates timer) (store s)) ∧
  (∀ h ms s, timeouts s !! h = Some (mkTimeout ms (WatcherExpiry timer)) →
             store (beginTimeout h s).1 = db_update (timerUpdates timer) (store s) ∧
             store (fireTimeout h s) = db_update (timerUpdates timer) (store s)) ∧
  (∀ doc, db_update (timerUpdates timer) doc !! "kill" = Some (JBool false) ∧
          ∀ d, d ∈ devices timer →
               db_update (timerUpdates timer) doc !! d = Some (JBool true)) ∧
  (∀ m s k, k ≠ "mode" → store (setMode m s).1 !! k = store s !! k).
Proof.
  intros Hon Hdevs.
  assert (is_on (action timer) = true) as Hb.
  { unfold is_on. by apply bool_decide_eq_true_2. }
  split_and!.
  - by apply timerUpdates_kill_on.
  - intros d Hin. rewrite timerUpdates_device; [by rewrite Hb | done |].
    by apply (proj1 (Forall_forall _ _) Hdevs).
  - intros now s Hact Hun Hown Hle. by rewrite onTimerValue_expired.
  - intros h ms s Hh. rewrite (beginTimeout_watcher _ _ _ _ Hh).
    by rewrite (fireTimeout_watcher _ _ _ _ Hh).
  - intros doc. destruct (fired_store timer doc Hdevs) as (Hdev & Hkill & _).
    split; [by apply Hkill|]. intros d Hin. rewrite Hdev by done. by rewrite Hb.
  - intros m s k Hne. by apply setMode_writes_mode_only.
Qed.

(** C2, amended, on a run: with [kill] set, an overdue ["on"] timer for
    [led1] and [tv] is delivered. *)
Lemma timer_on_clears_kill_in_same_update_witness :
  let timer := mkTimer "timer_1000" ["led1"; "tv"] 5 "on" 1000 6000 true in
  let s := mkServer (<["kill" := JBool true]> (<["timer" := JTimer timer]> defaultState))
             ∅ ∅ 0 in
  let s' := onTimerValue 6000 (Some (JTimer timer)) s in
  store s' !! "kill" = Some (JBool false) ∧ store s' !! "tv" = Some (JBool true).
Proof.
  intros timer s s'.
  destruct (timer_on_clears_kill_in_same_update timer eq_refl)
    as (_ & _ & Hnow & _ & Hdoc & _).
  - repeat (apply Forall_cons; split; [apply (bool_decide_unpack _); by vm_compute|]).
    by apply Forall_nil.
  - subst s'. rewrite (Hnow 6000 s); [|done|done| |simpl; lia].
    + destruct (Hdoc (store s)) as [Hkill Hdev].
      split; [exact Hkill|]. apply Hdev. right. by left.
    + apply (bool_decide_unpack _). by vm_compute.
Defined.

(** ** The kill switch *)

Lemma killUpdates_other (k : string) :
  k ∉ ["led1"; "led2"; "led3"; "kill"; "mode"] → killUpdates !! k = None.
Proof. intros Hk. by apply not_elem_of_list_to_map_1. Qed.

Lemma emergencyUpdates_other (k : string) :
  k ∉ ["led1"; "led2"; "led3"; "tv"; "kill"] → emergencyUpdates !! k = None.
Proof. intros Hk. by apply not_elem_of_list_to_map_1. Qed.

(** With the kill flag set the engine drives the three outputs low and
    keeps the streamed per-device values. *)
Lemma hardwareEngine_kill (millis1 millis2 : Z) (r1 r2 r3 : bool) (f : Firmware.State) :
  Firmware.killSwitch f = true →
  Firmware.hardwareEngine millis1 millis2 r1 r2 r3 f =
    Firmware.writePins false false false f.
Proof. intros Hk. unfold Firmware.hardwareEngine. by rewrite Hk. Qed.

(** C3, as the claim states it, fails: [led1] and [tv] are stored [true];
    after [POST /api/kill] the stored [led1] is [false], and after
    [GET /do/emergency] the stored [tv] is [false] too. *)
Lemma kill_overwrites_stored_outputs :
  let s := mkServer (<["led1" := JBool true]> (<["tv" := JBool true]> defaultState))
             ∅ ∅ 0 in
  store s !! "led1" = Some (JBool true) ∧
  store (kill s).1 !! "led1" = Some (JBool false) ∧
  store s !! "tv" = Some (JBool true) ∧
  store (doEmergency s) !! "tv" = Some (JBool false).
Proof. intros s. by vm_compute. Qed.

(** C3, amended.  Activating the kill switch is a destructive write:
    [POST /api/kill] stores [led1 = led2 = led3 = false], [kill = true] and
    [mode = "normal"] in one update and leaves every other child ([tv] and
    [timer] among them) unchanged; [GET /do/emergency] stores
    [led1 = led2 = led3 = tv = false] and [kill = true] and leaves every
    other child ([mode] and [timer] among them) unchanged.  On the device,
    a set kill flag drives all three outputs low whatever the streamed
    per-device values and mode are, and does not alter those values. *)
Theorem kill_switch_effect (s : Server) :
  (store (kill s).1 !! "led1" = Some (JBool false) ∧
   store (kill s).1 !! "led2" = Some (JBool false) ∧
   store (kill s).1 !! "led3" = Some (JBool false) ∧
   store (kill s).1 !! "kill" = Some (JBool true) ∧
   store (kill s).1 !! "mode" = Some (JStr "normal") ∧
   store (kill s).1 !! "tv" = store s !! "tv" ∧
   ∀ k, k ∉ ["led1"; "led2"; "led3"; "kill"; "mode"] →
        store (kill s).1 !! k = store s !! k) ∧
  (store (doEmergency s) !! "led1" = Some (JBool false) ∧
   store (doEmergency s) !! "led2" = Some (JBool false) ∧
   store (doEmergency s) !! "led3" = Some (JBool false) ∧
   store (doEmergency s) !! "tv" = Some (JBool false) ∧
   store (doEmergency s) !! "kill" = Some (JBool true) ∧
   ∀ k, k ∉ ["led1"; "led2"; "led3"; "tv"; "kill"] →
        store (doEmergency s) !! k = store s !! k) ∧
  (∀ millis1 millis2 r1 r2 r3 f, Firmware.killSwitch f = true →
     let f' := Firmware.hardwareEngine millis1 millis2 r1 r2 r3 f in
     Firmware.pinLED1 f' = false ∧ Firmware.pinLED2 f' = false ∧
     Firmware.pinLED3 f' = false ∧
     Firmware.led1 f' = Firmware.led1 f ∧ Firmware.led2 f' = Firmware.led2 f ∧
     Firmware.led3 f' = Firmware.led3 f).
Proof.
  split_and!; simpl; rewrite ?lookup_db_update; try done.
  - intros k Hk. by rewrite lookup_db_update, killUpdates_other.
  - intros k Hk. by rewrite lookup_db_update, emergencyUpdates_other.
  - intros millis1 millis2 r1 r2 r3 f Hk. by rewrite hardwareEngine_kill.
Qed.

(** ** The mode enumeration *)

(** The firmware still animates ["disco"]: once 200 ms have passed since
    the last frame, the three outputs take the three random draws. *)
Lemma hardwareEngine_disco (millis1 millis2 : Z) (r1 r2 r3 : bool) (f : Firmware.State) :
  Firmware.killSwitch f = false → Firmware.mode f = "disco" →
  200 <= Firmware.usub32 millis1 (Firmware.lastAnim f) →
  let f' := Firmware.hardwareEngine millis1 millis2 r1 r2 r3 f in
  Firmware.pinLED1 f' = r1 ∧ Firmware.pinLED2 f' = r2 ∧ Firmware.pinLED3 f' = r3 ∧
  Firmware.lastAnim f' = millis2.
Proof.
  intros Hk Hm Hdue. unfold Firmware.hardwareEngine. rewrite Hk, Hm.
  rewrite decide_False by done. rewrite decide_False by lia.
  cbn [Firmware.mode]. rewrite decide_False by done.
  rewrite decide_False by done. by rewrite decide_True.
Qed.

(** C8, as the claim states it, fails: ["disco"] is in the claimed
    enumeration, and the set-mode route rejects it without writing. *)
Lemma setMode_rejects_disco :
  let s := mkServer defaultState ∅ ∅ 0 in
  setMode "disco" s = (s, BadRequest "Invalid mode. Use normal, wave, or pulse.") ∧
  store (setMode "disco" s).1 !! "mode" = Some (JStr "normal").
Proof. intros s. by vm_compute. Qed.

(** C8, amended.  The set-mode route accepts exactly the three modes
    [normal], [wave] and [pulse]: for each of them it stores the string as
    the document's [mode] child (no other child changes) and replies with
    it; every other string, ["disco"] included, is rejected with the
    validation error and the whole server state, the [mode] child
    included, is unchanged. *)
Theorem setMode_closed_enumeration (m : string) (s : Server) :
  (m ∈ ["normal"; "wave"; "pulse"] →
     (setMode m s).2 = Ok m ∧
     store (setMode m s).1 !! "mode" = Some (JStr m) ∧
     ∀ k, k ≠ "mode" → store (setMode m s).1 !! k = store s !! k) ∧
  (m ∉ ["normal"; "wave"; "pulse"] →
     setMode m s = (s, BadRequest "Invalid mode. Use normal, wave, or pulse.")) ∧
  setMode "disco" s = (s, BadRequest "Invalid mode. Use normal, wave, or pulse.").
Proof.
  split_and!.
  - intros Hin. rewrite setMode_accepts by done. simpl.
    split_and!; [done | apply lookup_insert_eq |].
    intros k Hne. by rewrite lookup_insert_ne.
  - apply setMode_rejects.
  - apply setMode_rejects. apply (bool_decide_unpack _). by vm_compute.
Qed.

(** ** Timer status query *)

(** [Math.ceil] of a quotient by 1000: the least whole number of seconds
    that covers [x] milliseconds. *)
Lemma ceilDiv_1000_spec (x : Z) :
  1000 * (ceilDiv x 1000 - 1) < x <= 1000 * ceilDiv x 1000.
Proof.
  unfold ceilDiv.
  pose proof (Z.div_mod (- x) 1000 ltac:(lia)) as Hdm.
  pose proof (Z.mod_pos_bound (- x) 1000 ltac:(lia)) as Hb.
  lia.
Qed.

Lemma ceilDiv_1000_pos (x : Z) : 0 < ceilDiv x 1000 ↔ 0 < x.
Proof. pose proof (ceilDiv_1000_spec x). lia. Qed.

Lemma timerStatus_running (now : Z) (timer : TimerRecord) (s : Server) :
  store s !! "timer" = Some (JTimer timer) → active timer = true →
  now < endsAt timer →
  timerStatus now s = (s, ActiveTimer timer (ceilDiv (endsAt timer - now) 1000)).
Proof.
  intros Hst Hact Hlt. unfold timerStatus. rewrite Hst, activeTimer_record by done.
  cbv zeta.
  assert (0 < ceilDiv (endsAt timer - now) 1000) by (apply ceilDiv_1000_pos; lia).
  rewrite decide_False by lia.
  by replace (Z.max 0 (ceilDiv (endsAt timer - now) 1000))
    with (ceilDiv (endsAt timer - now) 1000) by lia.
Qed.

Lemma timerStatus_overdue (now : Z) (timer : TimerRecord) (s : Server) :
  store s !! "timer" = Some (JTimer timer) → active timer = true →
  endsAt timer <= now →
  timerStatus now s = (with_store (delete "timer" (store s)) s, NoActiveTimer).
Proof.
  intros Hst Hact Hle. unfold timerStatus. rewrite Hst, activeTimer_record by done.
  cbv zeta.
  assert (¬ 0 < ceilDiv (endsAt timer - now) 1000) by (rewrite ceilDiv_1000_pos; lia).
  by rewrite decide_True by lia.
Qed.

(** C7, as the claim states it, fails: 2500 ms before the deadline the
    query reports [remaining = 3], not [max(0, endsAt - now) = 2500]. *)
Lemma status_remaining_in_whole_seconds :
  let timer := mkTimer "timer_0" ["led1"] 3 "off" 0 2500 true in
  let s := mkServer (<["timer" := JTimer timer]> defaultState) ∅ ∅ 0 in
  (timerStatus 0 s).2 = ActiveTimer timer 3 ∧
  Z.max 0 (endsAt timer - 0) = 2500.
Proof. intros timer s. by vm_compute. Qed.

(** C7, amended.  While an active Timer Record is stored, the status query
    derives, at query time, [remaining = max(0, ceil((endsAt - now) /
    1000))]: the milliseconds [max(0, endsAt - now)] left, rounded up to
    whole seconds.  While milliseconds are left the reply is the record
    with that [remaining] (at least 1) and nothing is written; once
    [max(0, endsAt - now)] is 0 the reply is "no active timer". *)
Theorem timerStatus_remaining (now : Z) (timer : TimerRecord) (s : Server) :
  store s !! "timer" = Some (JTimer timer) →
  active timer = true →
  let ms := Z.max 0 (endsAt timer - now) in
  let remaining := Z.max 0 (ceilDiv (endsAt timer - now) 1000) in
  (0 < ms →
     timerStatus now s = (s, ActiveTimer timer remaining) ∧
     1 <= remaining ∧
     1000 * (remaining - 1) < ms <= 1000 * remaining) ∧
  (ms = 0 → remaining = 0 ∧ (timerStatus now s).2 = NoActiveTimer).
Proof.
  intros Hst Hact ms remaining.
  pose proof (ceilDiv_1000_spec (endsAt timer - now)) as Hspec.
  pose proof (ceilDiv_1000_pos (endsAt timer - now)) as Hpos.
  split.
  - intros Hms. assert (now < endsAt timer) as Hlt by lia.
    rewrite (timerStatus_running now timer s) by done.
    assert (remaining = ceilDiv (endsAt timer - now) 1000) as -> by lia.
    split_and!; [done | lia | lia | lia].
  - intros Hms. assert (endsAt timer <= now) as Hle by lia.
    rewrite (timerStatus_overdue now timer s) by done. split; [lia | done].
Qed.

(** C7, amended, on a run: 2500 ms before the deadline. *)
Lemma timerStatus_remaining_witness :
  let timer := mkTimer "timer_0" ["led1"] 3 "off" 0 2500 true in
  let s := mkServer (<["timer" := JTimer timer]> defaultState) ∅ ∅ 0 in
  timerStatus 0 s = (s, ActiveTimer timer 3).
Proof.
  intros timer s.
  destruct (timerStatus_remaining 0 timer s eq_refl eq_refl) as [Hrun _].
  destruct Hrun as (Hreply & _); [by vm_compute | exact Hreply].
Defined.

(** C10.  When the status query finds a stored active Timer Record whose
    deadline has passed ([endsAt <= now]), it replies "no active timer"
    and removes the [timer] child.  That is its only effect: every other
    child of the document (each device output, [kill], [mode]) keeps its
    value, so the record's action is not applied, and the query itself
    neither arms nor cancels a countdown.  When the resulting [null] is
    then delivered to the watcher, every countdown the process tracked is
    cancelled and the document is not written again. *)
Theorem timerStatus_discards_expired (now : Z) (timer : TimerRecord) (s : Server) :
  store s !! "timer" = Some (JTimer timer) →
  active timer = true →
  endsAt timer <= now →
  let s' := (timerStatus now s).1 in
  (timerStatus now s).2 = NoActiveTimer ∧
  store s' = delete "timer" (store s) ∧
  store s' !! "timer" = None ∧
  (∀ k, k ≠ "timer" → store s' !! k = store s !! k) ∧
  activeTimers s' = activeTimers s ∧
  timeouts s' = timeouts s ∧
  (∀ now', store (notifyTimer now' s') = store s' ∧
           activeTimers (notifyTimer now' s') = ∅ ∧
           ∀ k h, activeTimers s !! k = Some h →
                  timeouts (notifyTimer now' s') !! h = None).
Proof.
  intros Hst Hact Hle s'. subst s'.
  rewrite (timerStatus_overdue now timer s) by done. simpl.
  split_and!; try done.
  - apply lookup_delete_eq.
  - intros k Hne. by rewrite lookup_delete_ne.
  - intros now'. unfold notifyTimer. simpl. rewrite lookup_delete_eq. simpl.
    split_and!; try done.
    intros k h Hk.
    apply (clearAllTimers_tracked_gone (with_store (delete "timer" (store s)) s) k h Hk).
Qed.

(** C10, on a run: [led2] is on, its "off" timer is 1 s overdue and still
    tracked under handle 0 when the status query arrives. *)
Lemma timerStatus_discards_expired_witness :
  let timer := mkTimer "timer_1000" ["led2"] 2 "off" 1000 3000 true in
  let s := mkServer (<["led2" := JBool true]> (<["timer" := JTimer timer]> defaultState))
             {[ "timer_1000" := 0%nat ]}
             {[ 0%nat := mkTimeout 2000 (WatcherExpiry timer) ]} 1 in
  let s' := (timerStatus 4000 s).1 in
  store s' !! "timer" = None ∧
  store s' !! "led2" = Some (JBool true) ∧
  timeouts (notifyTimer 4001 s') !! 0%nat = None.
Proof.
  intros timer s s'.
  destruct (timerStatus_discards_expired 4000 timer s eq_refl eq_refl)
    as (_ & _ & Hgone & Hkeep & _ & _ & Hnote).
  - simpl. lia.
  - split; [exact Hgone|]. split.
    + fold s' in Hkeep. rewrite (Hkeep "led2") by done. by vm_compute.
    + destruct (Hnote 4001) as (_ & _ & Hq). by apply (Hq "timer_1000").
Defined.

(** ** ESP32 presence *)

(** Only a heartbeat writes [lastSeen]. *)
Lemma presenceStep_lastSeen (st : Esp32Status) (e : Z * PresenceEvent) :
  isHeartbeat e.2 = false → lastSeen (presenceStep st e) = lastSeen st.
Proof.
  destruct e as [now [reqIp b| |]]; intros Hhb; try done; simpl.
  - unfold presenceStep, espTimeoutCheck; simpl.
    destruct (lastSeen st) eqn:Hls; [|done]. by case_decide.
  - unfold presenceStep, espStatus; simpl.
    by destruct (lastSeen st) eqn:Hls.
Qed.

Lemma presenceRun_lastSeen (st : Esp32Status) (tr : list (Z * PresenceEvent)) :
  Forall (λ e, isHeartbeat e.2 = false) tr →
  lastSeen (presenceRun st tr) = lastSeen st.
Proof.
  unfold presenceRun. revert st.
  induction tr as [|e tr IH]; intros st Hhb; [done|].
  apply Forall_cons in Hhb as [He Htr]. cbn [foldl].
  by rewrite IH, presenceStep_lastSeen.
Qed.

Lemma presenceStep_inv (now : Z) (st : Esp32Status) (e : Z * PresenceEvent) :
  presenceInv now st → now <= e.1 → presenceInv e.1 (presenceStep st e).
Proof.
  destruct e as [now' [reqIp b| |]]; unfold presenceInv, presenceStep; simpl;
    intros Hinv Hle.
  - done.
  - unfold espTimeoutCheck. destruct (lastSeen st) as [seen|] eqn:Hls.
    + case_decide as Hel; simpl.
      * rewrite Hls. intros _ seen' [= <-]. lia.
      * rewrite Hls. intros Hoff seen' [= <-]. specialize (Hinv Hoff seen eq_refl). lia.
    + rewrite Hls. done.
  - unfold espStatus. destruct (lastSeen st) as [seen|] eqn:Hls; simpl.
    + rewrite Hls. intros Hoff seen' [= <-].
      apply bool_decide_eq_false in Hoff. lia.
    + rewrite Hls. done.
Qed.

(** Without a heartbeat an offline status stays offline. *)
Lemma presenceStep_stays_offline (now : Z) (st : Esp32Status) (e : Z * PresenceEvent) :
  presenceInv now st → now <= e.1 → isHeartbeat e.2 = false →
  online st = false → online (presenceStep st e) = false.
Proof.
  destruct e as [now' [reqIp b| |]]; unfold presenceInv, presenceStep; simpl;
    intros Hinv Hle Hhb Hoff; [done| |].
  - unfold espTimeoutCheck. destruct (lastSeen st); [|done]. by case_decide.
  - unfold espStatus. destruct (lastSeen st) as [seen|] eqn:Hls; [|done]. simpl.
    apply bool_decide_eq_false. specialize (Hinv Hoff seen eq_refl). lia.
Qed.

Lemma presenceRun_stays_offline (now : Z) (st : Esp32Status)
    (tr : list (Z * PresenceEvent)) :
  presenceInv now st → clockOrdered now tr →
  Forall (λ e, isHeartbeat e.2 = false) tr →
  online st = false → online (presenceRun st tr) = false.
Proof.
  unfold presenceRun. revert now st.
  induction tr as [|e tr IH]; intros now st Hinv Hord Hhb Hoff; [done|].
  destruct Hord as [Hle Hord]. apply Forall_cons in Hhb as [He Htr].
  cbn [foldl]. apply (IH e.1); [by eapply presenceStep_inv | done | done |].
  by eapply presenceStep_stays_offline.
Qed.

(** Offline at some point of a heartbeat-free, clock-ordered trace means
    offline at its end. *)
Lemma presenceRun_no_way_back (now : Z) (st : Esp32Status)
    (pre post : list (Z * PresenceEvent)) :
  presenceInv now st → clockOrdered now (pre ++ post) →
  Forall (λ e, isHeartbeat e.2 = false) (pre ++ post) →
  online (presenceRun st pre) = false → online (presenceRun st (pre ++ post)) = false.
Proof.
  unfold presenceRun. revert now st.
  induction pre as [|e pre IH]; intros now st Hinv Hord Hhb Hoff.
  - by apply (presenceRun_stays_offline now).
  - destruct Hord as [Hle Hord]. apply Forall_cons in Hhb as [He Htr].
    cbn [foldl app] in *. apply (IH e.1); [by eapply presenceStep_inv | done..].
Qed.

(** C9.  A heartbeat received at clock reading [t] makes the status Online
    with [lastSeen = t], whatever it was before.  Let any events without a
    further heartbeat follow (timeout checks and status queries, their
    clock readings not going back): [lastSeen] stays [t]; a status query
    made at a reading [now] with [now - t > 30000] reports Offline; and
    once the status is Offline at some point of that trace it is Offline
    at every later point, so only a fresh heartbeat brings it back
    Online. *)
Theorem presence_timeout (t : Z) (reqIp : string) (b : HeartbeatBody)
    (st0 : Esp32Status) (tr : list (Z * PresenceEvent)) :
  Forall (λ e, isHeartbeat e.2 = false) tr →
  clockOrdered t tr →
  let st1 := heartbeat t reqIp b st0 in
  online st1 = true ∧
  lastSeen st1 = Some t ∧
  lastSeen (presenceRun st1 tr) = Some t ∧
  (∀ now, now - t > ESP_TIMEOUT_MS →
          online (espStatus now (presenceRun st1 tr)) = false) ∧
  (∀ pre post, tr = pre ++ post →
          online (presenceRun st1 pre) = false →
          online (presenceRun st1 tr) = false).
Proof.
  intros Hhb Hord st1.
  assert (lastSeen (presenceRun st1 tr) = Some t) as Hls.
  { by rewrite presenceRun_lastSeen. }
  split_and!; try done.
  - intros now Hlate. unfold espStatus. rewrite Hls. simpl.
    apply bool_decide_eq_false. lia.
  - intros pre post -> Hoff. apply (presenceRun_no_way_back t); try done.
Qed.

(** C9, on a run: heartbeat at 0; checks at 10 s and 31 s, a status query
    at 32 s and one more check at 35 s. *)
Lemma presence_timeout_witness :
  let b := mkHeartbeat (Some "10.0.0.7") (Some (-61)) (Some 120) (Some 200000) in
  let tr := [(10000, EvTimeoutCheck); (31000, EvTimeoutCheck);
             (32000, EvStatusQuery); (35000, EvTimeoutCheck)] in
  let st1 := heartbeat 0 "10.0.0.1" b initialStatus in
  online st1 = true ∧
  online (espStatus 30001 (presenceRun st1 tr)) = false ∧
  online (presenceRun st1 tr) = false.
Proof.
  intros b tr st1.
  assert (Forall (λ e : Z * PresenceEvent, isHeartbeat e.2 = false) tr) as Hhb.
  { subst tr. by repeat constructor. }
  assert (clockOrdered 0 tr) as Hord.
  { subst tr. simpl. lia. }
  destruct (presence_timeout 0 "10.0.0.1" b initialStatus tr Hhb Hord)
    as (Hon & _ & _ & Hquery & Hback).
  split; [exact Hon|]. split.
  - apply Hquery. unfold ESP_TIMEOUT_MS. lia.
  - apply (Hback [(10000, EvTimeoutCheck); (31000, EvTimeoutCheck)]
                 [(32000, EvStatusQuery); (35000, EvTimeoutCheck)]); [done|].
    by vm_compute.
Defined.

(** ** Scheduling requests *)

(** The guards accept exactly the documented requests, for whichever
    device list the fourth guard carries. *)
Lemma validateRequest_accepts (known : list string) (msg : string) (req : TimerRequest)
    (devs : list string) (dur : Z) (act : string) :
  validateRequest known msg req = Ok (devs, dur, act) ↔
  body_devices req = Some devs ∧ devs ≠ [] ∧ Forall (λ d, d ∈ known) devs ∧
  body_duration req = Some dur ∧ 1 <= dur <= 86400 ∧
  body_action req = Some act ∧ (act = "on" ∨ act = "off").
Proof.
  unfold validateRequest. split.
  - destruct (body_devices req) as [[|d0 ds]|]; [done| |done].
    destruct (body_duration req) as [dur0|]; [|done].
    case_decide as Hr; [done|].
    destruct (body_action req) as [act0|]; [|done].
    case_decide as Ha; [|done]. case_decide as Hk; [|done].
    intros [= <- <- <-]. split_and!; try done; try lia.
    apply elem_of_cons in Ha as [->|Ha]; [by left|].
    apply elem_of_cons in Ha as [->|Ha]; [by right | by apply elem_of_nil in Ha].
  - intros (-> & Hne & Hall & -> & Hrange & -> & Hon).
    destruct devs as [|d0 ds]; [done|].
    rewrite decide_False by lia.
    rewrite decide_True by (destruct Hon as [-> | ->]; [by left | right; by left]).
    by rewrite decide_True.
Qed.

Lemma validateRequest_rejects (known : list string) (msg : string) (req : TimerRequest) :
  (∃ e, validateRequest known msg req = BadRequest e) ↔ ¬ validRequest known req.
Proof.
  destruct (validateRequest known msg req) as [[[devs dur] act]|e] eqn:Hv.
  - split; [by intros [e ?]|]. intros Hnot. destruct Hnot.
    exists devs, dur, act. by apply (validateRequest_accepts known msg).
  - split; [|by eexists]. intros _ (devs & dur & act & Hreq).
    apply (validateRequest_accepts known msg) in Hreq. congruence.
Qed.

(** A rejected request reaches neither the store nor the timer queue. *)
Lemma timerStart_rejected (tId tStart tEnd : Z) (req : TimerRequest) (s : Server) :
  ¬ validRequest ["led1"; "led2"; "led3"; "tv"] req ↔
  ∃ e, timerStart tId tStart tEnd req s = (s, BadRequest e).
Proof.
  rewrite <- (validateRequest_rejects _ "Invalid device names. Use led1, led2, led3, tv.").
  unfold timerStart.
  destruct (validateRequest _ _ req) as [[[devs dur] act]|e]; split.
  - intros [e He]. discriminate He.
  - intros [e He]. discriminate He.
  - intros _. by exists e.
  - intros _. by exists e.
Qed.

(** An accepted request replaces the [timer] child by a record with the
    time-based id, [active = true] and the two clock readings of
    [executeTimer]. *)
Lemma timerStart_accepted (tId tStart tEnd : Z) (req : TimerRequest) (s : Server)
    (devs : list string) (dur : Z) (act : string) :
  body_devices req = Some devs → devs ≠ [] →
  Forall (λ d, d ∈ ["led1"; "led2"; "led3"; "tv"]) devs →
  body_duration req = Some dur → 1 <= dur <= 86400 →
  body_action req = Some act → act = "on" ∨ act = "off" →
  let timer := mkTimer (timerIdAt tId) devs dur act tStart (tEnd + dur * 1000) true in
  timerStart tId tStart tEnd req s =
    (with_store (<["timer" := JTimer timer]> (store s)) (clearAllTimers s),
     Ok (mkScheduled (timerIdAt tId) devs dur act)) ∧
  endsAt timer - startedAt timer = dur * 1000 + (tEnd - tStart).
Proof.
  intros Hd Hne Hall Hdur Hrange Hact Hon timer.
  split; [|simpl; lia]. unfold timerStart.
  by rewrite (proj2 (validateRequest_accepts _ _ req devs dur act)).
Qed.

(** Ids taken at different clock readings differ. *)
Lemma timerIdAt_inj (t1 t2 : Z) : timerIdAt t1 = timerIdAt t2 → t1 = t2.
Proof.
  unfold timerIdAt. intros Heq. simpl in Heq.
  injection Heq as Heq. by apply (inj pretty).
Qed.

(** C6, at the failing input.  The request
    [{ devices: ["tv"], duration: 5, action: "off" }] names a known device
    ([POST /api/toggle/tv] of the same file accepts it), has a duration
    within 1..86400 and a valid action, so the claim has it accepted; the
    timer route of [src/server.js] rejects it with the device-name error
    and writes nothing, while the watcher revision's route accepts it.
    And where the request is accepted, the stored record has
    [endsAt - startedAt = duration * 1000] only when the two clock readings
    of [executeTimer] agree: with readings 1000 and 1001 the difference is
    5001. *)
Theorem timerStart_v1_rejects_tv (tId tStart tEnd : Z) (s : Server) :
  let req := mkRequest (Some ["tv"]) (Some 5) (Some "off") in
  validRequest ["led1"; "led2"; "led3"; "tv"] req ∧
  V1.timerStart tId tStart tEnd req s =
    (s, BadRequest "Invalid device names. Use led1, led2, led3.") ∧
  (toggle "tv" s).2 = Ok ("tv", negb (truthy (store s !! "tv"))) ∧
  (timerStart tId tStart tEnd req s).2 = Ok (mkScheduled (timerIdAt tId) ["tv"] 5 "off") ∧
  store (timerStart tId 1000 1001 req s).1 !! "timer" =
    Some (JTimer (mkTimer (timerIdAt tId) ["tv"] 5 "off" 1000 6001 true)).
Proof.
  intros req. split_and!.
  - exists ["tv"], 5, "off". split_and!; try done; try lia.
    + apply Forall_cons. split; [|by apply Forall_nil].
      apply (bool_decide_unpack _). by vm_compute.
    + by right.
  - done.
  - done.
  - done.
  - simpl. apply lookup_insert_eq.
Qed.

(** ** Scenarios *)

Example timerIdAt_1000 : timerIdAt 1000 = "timer_1000".
Proof. by vm_compute. Qed.

(** Schedule and fire: [led2] is on; [{devices: ["led2"], duration: 2,
    action: "off"}] is accepted at clock reading 1000, the watcher is
    notified and arms 2000 ms, and the expiry stores [led2 = false] and
    removes the record. *)
Example schedule_and_fire :
  let s0 := mkServer (<["led2" := JBool true]> defaultState) ∅ ∅ 0 in
  let req := mkRequest (Some ["led2"]) (Some 2) (Some "off") in
  let s1 := (timerStart 1000 1000 1000 req s0).1 in
  let s2 := notifyTimer 1000 s1 in
  let s3 := fireTimeout 0 s2 in
  activeTimers s2 = {[ "timer_1000" := 0%nat ]} ∧
  delay <$> timeouts s2 !! 0%nat = Some 2000 ∧
  store s3 !! "led2" = Some (JBool false) ∧
  store s3 !! "timer" = None ∧
  activeTimers s3 = ∅ ∧ timeouts s3 = ∅.
Proof. by vm_compute. Qed.

(** Deadline recomputation and crash recovery: a record with
    [endsAt = 6000] read by a process that starts at 4000 is armed for
    2000 ms; read by a process that starts at 7000 it is applied at
    once. *)
Example recompute_and_recover :
  let timer := mkTimer "timer_1000" ["led2"] 5 "off" 1000 6000 true in
  let s0 := mkServer (<["led2" := JBool true]> (<["timer" := JTimer timer]> defaultState))
              ∅ ∅ 0 in
  delay <$> timeouts (notifyTimer 4000 s0) !! 0%nat = Some 2000 ∧
  store (notifyTimer 4000 s0) !! "led2" = Some (JBool true) ∧
  timeouts (notifyTimer 7000 s0) = ∅ ∧
  store (notifyTimer 7000 s0) !! "led2" = Some (JBool false) ∧
  store (notifyTimer 7000 s0) !! "timer" = None.
Proof. by vm_compute. Qed.

(** Supersede under the watcher revision: timer A (10 s, [led1]) is armed,
    then timer B (5 s, [led2]) is scheduled; the route cancels A's
    countdown, and only B's is pending after the next notification. *)
Example supersede :
  let s0 := mkServer (<["led1" := JBool true]> (<["led2" := JBool true]> defaultState))
              ∅ ∅ 0 in
  let a := mkRequest (Some ["led1"]) (Some 10) (Some "off") in
  let b := mkRequest (Some ["led2"]) (Some 5) (Some "off") in
  let s1 := notifyTimer 1000 (timerStart 1000 1000 1000 a s0).1 in
  let s2 := notifyTimer 2000 (timerStart 2000 2000 2000 b s1).1 in
  activeTimers s1 = {[ "timer_1000" := 0%nat ]} ∧
  activeTimers s2 = {[ "timer_2000" := 1%nat ]} ∧
  timeouts s2 !! 0%nat = None ∧
  delay <$> timeouts s2 !! 1%nat = Some 5000 ∧
  store (fireTimeout 1 s2) !! "led1" = Some (JBool true) ∧
  store (fireTimeout 1 s2) !! "led2" = Some (JBool false).
Proof. by vm_compute. Qed.

(** * Further properties of the code *)

(** ** The timer queue *)

(** [clearAllTimers] cancels exactly the tracked handles: a handle some
    id tracks is no longer pending, a handle no id tracks keeps its queue
    entry, nothing is tracked afterwards, and the document is not
    touched. *)
Theorem clearAllTimers_cancels_exactly_tracked (s : Server) (h : nat) :
  ((∃ k, activeTimers s !! k = Some h) → timeouts (clearAllTimers s) !! h = None) ∧
  ((∀ k, activeTimers s !! k ≠ Some h) →
     timeouts (clearAllTimers s) !! h = timeouts s !! h) ∧
  activeTimers (clearAllTimers s) = ∅ ∧
  store (clearAllTimers s) = store s ∧
  nextTimeout (clearAllTimers s) = nextTimeout s.
Proof.
  split_and!; try done.
  - intros [k Hk]. by apply (clearAllTimers_tracked_gone s k).
  - apply clearAllTimers_untracked_kept.
Qed.

Lemma fireTimeout_not_pending (h : nat) (s : Server) :
  timeouts (fireTimeout h s) !! h = None.
Proof.
  unfold fireTimeout. destruct (timeouts s !! h) as [tm|] eqn:Hh; [|done].
  destruct (callback tm); simpl; apply lookup_delete_eq.
Qed.

(** A countdown fires at most once: the expiry of a handle removes it
    from the queue, so a second expiry of the same handle changes nothing,
    and the expiry of a handle that is not pending (never armed, cleared,
    or already fired) changes nothing either. *)
Theorem countdown_fires_at_most_once (h : nat) (s : Server) :
  fireTimeout h (fireTimeout h s) = fireTimeout h s ∧
  (timeouts s !! h = None → fireTimeout h s = s) ∧
  (∀ h', h' ≠ h → timeouts (fireTimeout h s) !! h' = timeouts s !! h').
Proof.
  split_and!.
  - unfold fireTimeout at 1. by rewrite fireTimeout_not_pending.
  - intros Hh. unfold fireTimeout. by rewrite Hh.
  - intros h' Hne. unfold fireTimeout.
    destruct (timeouts s !! h) as [tm|] eqn:Hh; [|done].
    destruct (callback tm); simpl; by rewrite lookup_delete_ne.
Qed.

(** ** Scheduling, composed with the watcher and the status query *)

Lemma timerStart_valid (tId tStart tEnd : Z) (devs : list string) (dur : Z) (act : string)
    (s : Server) :
  devs ≠ [] → Forall (λ d, d ∈ ["led1"; "led2"; "led3"; "tv"]) devs →
  1 <= dur <= 86400 → act = "on" ∨ act = "off" →
  timerStart tId tStart tEnd (mkRequest (Some devs) (Some dur) (Some act)) s =
    (with_store
       (<["timer" := JTimer (mkTimer (timerIdAt tId) devs dur act tStart
                               (tEnd + dur * 1000) true)]> (store s))
       (clearAllTimers s),
     Ok (mkScheduled (timerIdAt tId) devs dur act)).
Proof.
  intros Hne Hall Hrange Hon. unfold timerStart.
  by rewrite (proj2 (validateRequest_accepts _ _
                       (mkRequest (Some devs) (Some dur) (Some act)) devs dur act)).
Qed.

(** For a body whose fields have the JSON types of the documented
    interface ([TimerRequest]: each field possibly missing, [duration] an
    integer): the request is rejected, with the state left exactly as it
    was, if and only if it is not a documented request; it is accepted if
    and only if it is one, and then nothing is tracked when the route
    returns (the previous countdowns are cleared before the record is
    written). *)
Theorem timerStart_rejects_exactly_invalid (tId tStart tEnd : Z) (req : TimerRequest)
    (s : Server) :
  (¬ validRequest ["led1"; "led2"; "led3"; "tv"] req ↔
     ∃ e, timerStart tId tStart tEnd req s = (s, BadRequest e)) ∧
  (validRequest ["led1"; "led2"; "led3"; "tv"] req ↔
     ∃ sch, (timerStart tId tStart tEnd req s).2 = Ok sch) ∧
  (∀ sch, (timerStart tId tStart tEnd req s).2 = Ok sch →
     activeTimers (timerStart tId tStart tEnd req s).1 = ∅ ∧
     timerId sch = timerIdAt tId ∧
     ∃ timer, store (timerStart tId tStart tEnd req s).1 !! "timer" = Some (JTimer timer) ∧
              id timer = timerIdAt tId ∧ active timer = true ∧
              Some (devices timer) = body_devices req ∧
              Some (duration timer) = body_duration req ∧
              Some (action timer) = body_action req).
Proof.
  pose proof (validateRequest_rejects ["led1"; "led2"; "led3"; "tv"]
                "Invalid device names. Use led1, led2, led3, tv." req) as Hrej.
  unfold timerStart.
  destruct (validateRequest _ _ req) as [[[devs dur] act]|e] eqn:Hv.
  - split_and!.
    + split; [|intros [e He]; discriminate He].
      intros Hnot. apply Hrej in Hnot as [e He]. discriminate He.
    + split; [by eexists|]. intros _. exists devs, dur, act.
      exact (proj1 (validateRequest_accepts _ _ req devs dur act) Hv).
    + intros sch [= <-]. simpl. split_and!; try done.
      destruct (proj1 (validateRequest_accepts _ _ req devs dur act) Hv)
        as (Hd & _ & _ & Hdur & _ & Hact & _).
      eexists. split; [apply lookup_insert_eq|]. simpl. by rewrite Hd, Hdur, Hact.
  - split_and!.
    + split; [by eexists|]. intros _. apply Hrej. by eexists.
    + split; [|intros [sch Hs]; discriminate Hs].
      intros Hval. destruct (proj1 Hrej); [by eexists | done].
    + intros sch Hs. discriminate Hs.
Qed.

(** Deadline recomputation after scheduling: once a valid request is
    stored and the watcher is notified at a reading [now] before the
    deadline, the document is unchanged by the notification, the only
    tracked id is the new one, its countdown is armed for exactly
    [endsAt - now] milliseconds (not for the requested duration), and
    every handle tracked before the request is cancelled. *)
Theorem schedule_then_notify (tId tStart tEnd now : Z) (devs : list string) (dur : Z)
    (act : string) (s : Server) :
  devs ≠ [] → Forall (λ d, d ∈ ["led1"; "led2"; "led3"; "tv"]) devs →
  1 <= dur <= 86400 → act = "on" ∨ act = "off" →
  now < tEnd + dur * 1000 →
  let timer := mkTimer (timerIdAt tId) devs dur act tStart (tEnd + dur * 1000) true in
  let s1 := (timerStart tId tStart tEnd (mkRequest (Some devs) (Some dur) (Some act)) s).1 in
  let s2 := notifyTimer now s1 in
  store s1 !! "timer" = Some (JTimer timer) ∧
  (∀ k h, activeTimers s !! k = Some h → timeouts s1 !! h = None) ∧
  store s2 = store s1 ∧
  activeTimers s2 = {[ timerIdAt tId := nextTimeout s ]} ∧
  timeouts s2 !! nextTimeout s =
    Some (mkTimeout (tEnd + dur * 1000 - now) (WatcherExpiry timer)).
Proof.
  intros Hne Hall Hrange Hon Hlt timer s1 s2.
  subst s2 s1. rewrite timerStart_valid by done. cbn [fst].
  unfold notifyTimer. cbn [store with_store]. rewrite lookup_insert_eq. fold timer.
  rewrite onTimerValue_pending; [|done|done|apply timerIdAt_own_key|done].
  rewrite armTimeout_own_key by apply timerIdAt_own_key. simpl.
  split_and!; try done.
  - intros k h Hk. by apply (clearAllTimers_tracked_gone s k).
  - apply lookup_insert_eq.
Qed.

Lemma schedule_then_notify_witness :
  let s := mkServer (<["led2" := JBool true]> defaultState) ∅ ∅ 0 in
  let s1 := (timerStart 1000 1000 1000 (mkRequest (Some ["led2"]) (Some 5) (Some "off")) s).1 in
  activeTimers (notifyTimer 4000 s1) = {[ "timer_1000" := 0%nat ]} ∧
  delay <$> timeouts (notifyTimer 4000 s1) !! 0%nat = Some 2000.
Proof.
  intros s s1.
  destruct (schedule_then_notify 1000 1000 1000 4000 ["led2"] 5 "off" s)
    as (_ & _ & _ & Ha & Hq).
  - done.
  - apply Forall_cons. split; [|by apply Forall_nil].
    apply (bool_decide_unpack _). by vm_compute.
  - lia.
  - by right.
  - lia.
  - split; [exact Ha|]. fold s1 in Hq. change (nextTimeout s) with 0%nat in Hq.
    by rewrite Hq.
Defined.

(** Schedule, then ask: a status query at the clock reading [endsAt] was
    computed from reports the requested duration as [remaining]; at any
    reading before the deadline it reports the milliseconds left rounded
    up to seconds and writes nothing; from the deadline on it reports no
    active timer. *)
Theorem status_after_schedule (tId tStart tEnd : Z) (devs : list string) (dur : Z)
    (act : string) (s : Server) :
  devs ≠ [] → Forall (λ d, d ∈ ["led1"; "led2"; "led3"; "tv"]) devs →
  1 <= dur <= 86400 → act = "on" ∨ act = "off" →
  let timer := mkTimer (timerIdAt tId) devs dur act tStart (tEnd + dur * 1000) true in
  let s1 := (timerStart tId tStart tEnd (mkRequest (Some devs) (Some dur) (Some act)) s).1 in
  timerStatus tEnd s1 = (s1, ActiveTimer timer dur) ∧
  (∀ now, now < tEnd + dur * 1000 →
     timerStatus now s1 = (s1, ActiveTimer timer (ceilDiv (tEnd + dur * 1000 - now) 1000))) ∧
  (∀ now, tEnd + dur * 1000 <= now → (timerStatus now s1).2 = NoActiveTimer).
Proof.
  intros Hne Hall Hrange Hon timer s1.
  assert (store s1 !! "timer" = Some (JTimer timer)) as Hst.
  { subst s1. rewrite timerStart_valid by done. simpl. apply lookup_insert_eq. }
  split_and!.
  - rewrite (timerStatus_running tEnd timer s1); [|done|done|simpl; lia].
    do 2 f_equal. simpl.
    pose proof (ceilDiv_1000_spec (tEnd + dur * 1000 - tEnd)). lia.
  - intros now Hlt. by rewrite (timerStatus_running now timer s1).
  - intros now Hle. by rewrite (timerStatus_overdue now timer s1).
Qed.

Lemma status_after_schedule_witness :
  let s := mkServer defaultState ∅ ∅ 0 in
  let s1 := (timerStart 1000 1000 1000 (mkRequest (Some ["tv"]) (Some 90) (Some "on")) s).1 in
  (timerStatus 1000 s1).2 =
    ActiveTimer (mkTimer "timer_1000" ["tv"] 90 "on" 1000 91000 true) 90.
Proof.
  intros s s1.
  destruct (status_after_schedule 1000 1000 1000 ["tv"] 90 "on" s) as (Hnow & _).
  - done.
  - apply Forall_cons. split; [|by apply Forall_nil].
    apply (bool_decide_unpack _). by vm_compute.
  - lia.
  - by left.
  - fold s1 in Hnow. by rewrite Hnow.
Defined.

(** A cancelled timer never fires: after the cancel route, the expiry of
    any handle that was tracked changes nothing, the status query reports
    no active timer without writing, and the notification of the removed
    record leaves the process as it is. *)
Theorem cancelled_countdown_never_fires (k : string) (h : nat) (s : Server) :
  activeTimers s !! k = Some h →
  let s' := timerCancel s in
  fireTimeout h s' = s' ∧
  (∀ now, timerStatus now s' = (s', NoActiveTimer)) ∧
  (∀ now, notifyTimer now s' = s').
Proof.
  intros Hk s'.
  destruct (timerCancel_clears s) as (Hst & Ha & Hq). fold s' in Hst, Ha, Hq.
  split_and!.
  - unfold fireTimeout. by rewrite (Hq k h Hk).
  - intros now. unfold timerStatus. by rewrite Hst.
  - intros now. unfold notifyTimer, onTimerValue. rewrite Hst. simpl.
    by apply clearAllTimers_untracked.
Qed.

Lemma cancelled_countdown_never_fires_witness :
  let timer := mkTimer "timer_1000" ["led2"] 5 "off" 1000 6000 true in
  let s := mkServer (<["led2" := JBool true]> (<["timer" := JTimer timer]> defaultState))
             {[ "timer_1000" := 0%nat ]}
             {[ 0%nat := mkTimeout 5000 (WatcherExpiry timer) ]} 1 in
  store (fireTimeout 0 (timerCancel s)) !! "led2" = Some (JBool true).
Proof.
  intros timer s.
  destruct (cancelled_countdown_never_fires "timer_1000" 0 s eq_refl) as (Hfire & _).
  rewrite Hfire. by vm_compute.
Defined.

(** Supersede at the watcher: when a record with an untracked id of its
    own (not a property name [activeTimers] inherits from
    [Object.prototype]) arrives before its deadline, at most 2^31 - 1 ms
    ahead, while another id is tracked, the tracked countdown is
    cancelled and only the new id is tracked afterwards, armed with
    [endsAt - now] milliseconds, which is the delay Node waits. *)
Theorem watcher_supersedes_tracked (now : Z) (timer : TimerRecord) (k : string) (h : nat)
    (s : Server) :
  active timer = true →
  activeTimers s !! id timer = None →
  id timer ∉ OBJECT_PROTOTYPE_KEYS →
  activeTimers s !! k = Some h →
  (h < nextTimeout s)%nat →
  now < endsAt timer →
  endsAt timer - now <= TIMEOUT_MAX →
  let s' := onTimerValue now (Some (JTimer timer)) s in
  timeouts s' !! h = None ∧
  activeTimers s' !! k = None ∧
  activeTimers s' = {[ id timer := nextTimeout s ]} ∧
  timeouts s' !! nextTimeout s =
    Some (mkTimeout (endsAt timer - now) (WatcherExpiry timer)) ∧
  nodeDelay (endsAt timer - now) = endsAt timer - now.
Proof.
  intros Hact Hun Hown Hk Hlt Hnow Hmax s'. subst s'.
  rewrite onTimerValue_pending by done.
  rewrite armTimeout_own_key by done. simpl.
  assert (k ≠ id timer) as Hne by congruence.
  split_and!.
  - rewrite lookup_insert_ne by lia. by apply (clearAllTimers_tracked_gone s k).
  - by rewrite lookup_insert_ne.
  - by rewrite insert_empty.
  - apply lookup_insert_eq.
  - apply nodeDelay_in_range. lia.
Qed.

Lemma watcher_supersedes_tracked_witness :
  let a := mkTimer "timer_1000" ["led1"] 10 "off" 1000 11000 true in
  let b := mkTimer "timer_2000" ["led2"] 5 "off" 2000 7000 true in
  let s := mkServer (<["timer" := JTimer b]> defaultState)
             {[ "timer_1000" := 0%nat ]}
             {[ 0%nat := mkTimeout 10000 (WatcherExpiry a) ]} 1 in
  let s' := onTimerValue 2000 (Some (JTimer b)) s in
  timeouts s' !! 0%nat = None ∧ activeTimers s' = {[ "timer_2000" := 1%nat ]}.
Proof.
  intros a b s s'.
  assert (id b ∉ OBJECT_PROTOTYPE_KEYS) as Hown.
  { apply (bool_decide_unpack _). by vm_compute. }
  destruct (watcher_supersedes_tracked 2000 b "timer_1000" 0 s eq_refl eq_refl Hown eq_refl)
    as (Hgone & _ & Ha & _).
  - simpl. lia.
  - simpl. lia.
  - unfold TIMEOUT_MAX. simpl. lia.
  - split; [exact Hgone | exact Ha].
Defined.

(** A snapshot that is [null], not a record, or a record whose [active]
    is false never writes the document: the watcher only cancels every
    tracked countdown. *)
Theorem watcher_inactive_snapshot (now : Z) (snap : option jvalue) (s : Server) :
  activeTimer snap = None →
  let s' := onTimerValue now snap s in
  store s' = store s ∧
  activeTimers s' = ∅ ∧
  (∀ k h, activeTimers s !! k = Some h → timeouts s' !! h = None) ∧
  (∀ h, (∀ k, activeTimers s !! k ≠ Some h) → timeouts s' !! h = timeouts s !! h).
Proof.
  intros Hsnap s'. subst s'. unfold onTimerValue. rewrite Hsnap.
  split_and!; try done.
  - intros k h Hk. by apply (clearAllTimers_tracked_gone s k).
  - intros h Hno. by apply clearAllTimers_untracked_kept.
Qed.

Lemma watcher_inactive_snapshot_witness :
  let timer := mkTimer "timer_1000" ["led2"] 5 "off" 1000 6000 true in
  let stopped := mkTimer "timer_1000" ["led2"] 5 "off" 1000 6000 false in
  let s := mkServer (<["led2" := JBool true]> defaultState)
             {[ "timer_1000" := 0%nat ]}
             {[ 0%nat := mkTimeout 5000 (WatcherExpiry timer) ]} 1 in
  let s' := onTimerValue 7000 (Some (JTimer stopped)) s in
  store s' = store s ∧ timeouts s' !! 0%nat = None.
Proof.
  intros timer stopped s s'.
  destruct (watcher_inactive_snapshot 7000 (Some (JTimer stopped)) s eq_refl)
    as (Hst & _ & Hq & _).
  split; [exact Hst|]. by apply (Hq "timer_1000").
Defined.

(** The id-collision edge of [GET /do/timer/...]: the route does not clear
    [activeTimers], so when the id it generates (one per millisecond of
    the clock) is the id of the countdown the process tracks, the new
    record is stored but every notification of it is ignored by the
    watcher: the old countdown stays the pending one and the new deadline
    is never armed. *)
Theorem doTimer_same_id_not_rearmed (tId tStart tEnd : Z) (device deviceKey : string)
    (dur : Z) (act : string) (h : nat) (s : Server) :
  DEVICE_ALIASES !! device = Some deviceKey →
  1 <= dur <= 86400 →
  act = "on" ∨ act = "off" →
  activeTimers s !! timerIdAt tId = Some h →
  let timer := mkTimer (timerIdAt tId) [deviceKey] dur act tStart (tEnd + dur * 1000) true in
  let s1 := (doTimer tId tStart tEnd device (Some dur) act s).1 in
  store s1 !! "timer" = Some (JTimer timer) ∧
  activeTimers s1 = activeTimers s ∧
  timeouts s1 = timeouts s ∧
  (∀ now, notifyTimer now s1 = s1).
Proof.
  intros Hal Hrange Hon Htr timer s1.
  assert (s1 = with_store (<["timer" := JTimer timer]> (store s)) s) as ->.
  { subst s1. unfold doTimer. rewrite Hal.
    rewrite decide_False by lia.
    rewrite decide_True by (destruct Hon as [-> | ->]; [by left | right; by left]).
    done. }
  simpl. split_and!; try done.
  - apply lookup_insert_eq.
  - intros now. unfold notifyTimer. simpl. rewrite lookup_insert_eq.
    apply onTimerValue_tracked; [done|]. simpl. by eexists.
Qed.

Lemma doTimer_same_id_not_rearmed_witness :
  let old := mkTimer "timer_1000" ["led1"] 600 "off" 1000 601000 true in
  let s := mkServer (<["timer" := JTimer old]> defaultState)
             {[ "timer_1000" := 0%nat ]}
             {[ 0%nat := mkTimeout 600000 (WatcherExpiry old) ]} 1 in
  let s1 := (doTimer 1000 1000 1000 "bedroom" (Some 5) "off" s).1 in
  store s1 !! "timer" =
    Some (JTimer (mkTimer "timer_1000" ["led2"] 5 "off" 1000 6000 true)) ∧
  timeouts (notifyTimer 1000 s1) = {[ 0%nat := mkTimeout 600000 (WatcherExpiry old) ]}.
Proof.
  intros old s s1.
  destruct (doTimer_same_id_not_rearmed 1000 1000 1000 "bedroom" "led2" 5 "off" 0 s)
    as (Hst & _ & Hq & Hnote).
  - done.
  - lia.
  - by right.
  - done.
  - split; [exact Hst|]. fold s1 in Hnote, Hq. rewrite (Hnote 1000). exact Hq.
Defined.

(** Ids are one per clock reading: two scheduling requests get the same
    timer id exactly when their id readings are the same millisecond. *)
Theorem timer_ids_per_millisecond (t1 t2 : Z) :
  timerIdAt t1 = timerIdAt t2 ↔ t1 = t2.
Proof. split; [apply timerIdAt_inj | by intros ->]. Qed.

(** ** The earlier revision: schedule and fire without a watcher *)

Lemma lookup_directUpdates_device (devs : list string) (act d : string) :
  d ∈ devs → d ≠ "kill" → d ≠ "__proto__" →
  directUpdates devs act !! d = Some (JBool (is_on act)).
Proof.
  intros Hin Hk Hp. unfold directUpdates, clear_kill_if_on.
  destruct (is_on act) eqn:Hon.
  - rewrite lookup_insert_ne by done. rewrite lookup_set_devices, Hon.
    by rewrite decide_True.
  - rewrite lookup_set_devices, Hon. by rewrite decide_True.
Qed.

Lemma led_is_not_a_field (d : string) :
  d ∈ ["led1"; "led2"; "led3"] → d ≠ "kill" ∧ d ≠ "timer" ∧ d ≠ "__proto__".
Proof.
  intros Hin. repeat (apply elem_of_cons in Hin as [-> | Hin]; [done|]).
  by apply elem_of_nil in Hin.
Qed.

(** In [src/server.js] an accepted request stores the record and arms the
    countdown itself, for [duration * 1000] milliseconds under the new id;
    the expiry of that countdown sets every listed device to
    [action === "on"], clears [kill] when turning on and leaves it alone
    when turning off, removes the [timer] record and untracks the id. *)
Theorem v1_schedule_and_fire (tId tStart tEnd : Z) (devs : list string) (dur : Z)
    (act : string) (s : Server) :
  devs ≠ [] → Forall (λ d, d ∈ ["led1"; "led2"; "led3"]) devs →
  1 <= dur <= 86400 → act = "on" ∨ act = "off" →
  let s1 := (V1.timerStart tId tStart tEnd (mkRequest (Some devs) (Some dur) (Some act)) s).1 in
  let h := nextTimeout s in
  let s2 := fireTimeout h s1 in
  activeTimers s1 = {[ timerIdAt tId := h ]} ∧
  timeouts s1 !! h = Some (mkTimeout (dur * 1000) (DirectExpiry (timerIdAt tId) devs act)) ∧
  store s1 !! "timer" =
    Some (JTimer (mkTimer (timerIdAt tId) devs dur act tStart (tEnd + dur * 1000) true)) ∧
  (∀ d, d ∈ devs → store s2 !! d = Some (JBool (is_on act))) ∧
  (act = "on" → store s2 !! "kill" = Some (JBool false)) ∧
  (act = "off" → store s2 !! "kill" = store s !! "kill") ∧
  store s2 !! "timer" = None ∧
  activeTimers s2 = ∅ ∧
  timeouts s2 !! h = None.
Proof.
  intros Hne Hall Hrange Hon s1 h s2.
  assert (s1 = V1.executeTimer tStart tEnd (timerIdAt tId) devs dur act (clearAllTimers s))
    as Hs1.
  { subst s1. unfold V1.timerStart.
    by rewrite (proj2 (validateRequest_accepts _ _
                         (mkRequest (Some devs) (Some dur) (Some act)) devs dur act)). }
  unfold V1.executeTimer in Hs1. cbv zeta in Hs1.
  rewrite armTimeout_own_key in Hs1 by apply timerIdAt_own_key.
  assert (timeouts s1 !! h =
            Some (mkTimeout (dur * 1000) (DirectExpiry (timerIdAt tId) devs act))) as Hq.
  { rewrite Hs1. simpl. apply lookup_insert_eq. }
  assert (s2 = runCallback (DirectExpiry (timerIdAt tId) devs act)
                 (mkServer (store s1) (activeTimers s1) (delete h (timeouts s1))
                    (nextTimeout s1))) as Hs2.
  { subst s2. unfold fireTimeout. by rewrite Hq. }
  split_and!.
  - rewrite Hs1. simpl. by rewrite insert_empty.
  - done.
  - rewrite Hs1. simpl. apply lookup_insert_eq.
  - intros d Hin. rewrite Hs2. simpl.
    destruct (led_is_not_a_field d) as (Hk & Ht & Hp).
    { by apply (proj1 (Forall_forall _ _) Hall). }
    rewrite lookup_delete_ne by done.
    by rewrite lookup_db_update, lookup_directUpdates_device.
  - intros ->. rewrite Hs2. simpl. rewrite lookup_delete_ne by done.
    rewrite lookup_db_update. unfold directUpdates, clear_kill_if_on. simpl.
    by rewrite lookup_insert_eq.
  - intros ->. rewrite Hs2. simpl. rewrite lookup_delete_ne by done.
    rewrite lookup_db_update. unfold directUpdates, clear_kill_if_on. simpl.
    rewrite lookup_set_devices. rewrite decide_False.
    + rewrite Hs1. simpl. by rewrite lookup_insert_ne.
    + intros [Hin _]. destruct (led_is_not_a_field "kill") as [Hk _]; [|done].
      by apply (proj1 (Forall_forall _ _) Hall).
  - rewrite Hs2. simpl. apply lookup_delete_eq.
  - rewrite Hs2, Hs1. simpl. rewrite insert_empty. apply delete_singleton_eq.
  - rewrite Hs2. simpl. apply lookup_delete_eq.
Qed.

Lemma v1_schedule_and_fire_witness :
  let s := mkServer (<["kill" := JBool true]> defaultState) ∅ ∅ 0 in
  let s1 := (V1.timerStart 1000 1000 1000
               (mkRequest (Some ["led1"; "led3"]) (Some 2) (Some "on")) s).1 in
  delay <$> timeouts s1 !! 0%nat = Some 2000 ∧
  store (fireTimeout 0 s1) !! "led3" = Some (JBool true) ∧
  store (fireTimeout 0 s1) !! "kill" = Some (JBool false) ∧
  store (fireTimeout 0 s1) !! "timer" = None.
Proof.
  intros s s1.
  destruct (v1_schedule_and_fire 1000 1000 1000 ["led1"; "led3"] 2 "on" s)
    as (_ & Hq & _ & Hdev & Hkill & _ & Htimer & _).
  - done.
  - repeat (apply Forall_cons; split; [apply (bool_decide_unpack _); by vm_compute|]).
    by apply Forall_nil.
  - lia.
  - by left.
  - fold s1 in Hq, Hdev, Hkill, Htimer. change (nextTimeout s) with 0%nat in *.
    split; [by rewrite Hq|]. split; [|split; [by apply Hkill | exact Htimer]].
    apply Hdev. right. by left.
Defined.

(** ** Routes that write device outputs *)

(** Toggling a device twice: the first toggle stores the negation of the
    child's truthiness (a missing child becomes [true]), the second stores
    that truthiness back, no other child changes, and when the child held
    a boolean the document is exactly what it was. *)
Theorem toggle_twice (led : string) (s : Server) :
  led ∈ ["led1"; "led2"; "led3"; "tv"] →
  let s1 := (toggle led s).1 in
  let s2 := (toggle led s1).1 in
  store s1 !! led = Some (JBool (negb (truthy (store s !! led)))) ∧
  (store s !! led = None → store s1 !! led = Some (JBool true)) ∧
  store s2 !! led = Some (JBool (truthy (store s !! led))) ∧
  (∀ k, k ≠ led → store s2 !! k = store s !! k) ∧
  (∀ b, store s !! led = Some (JBool b) → s2 = s).
Proof.
  intros Hin s1 s2.
  assert (s1 = with_store (<[led := JBool (negb (truthy (store s !! led)))]> (store s)) s)
    as Hs1.
  { subst s1. unfold toggle. by rewrite decide_True. }
  assert (s2 = with_store (<[led := JBool (truthy (store s !! led))]> (store s)) s) as Hs2.
  { subst s2. unfold toggle. rewrite decide_True by done. rewrite Hs1. simpl.
    rewrite lookup_insert_eq. simpl. rewrite negb_involutive.
    unfold with_store. simpl. by rewrite insert_insert_eq. }
  split_and!.
  - rewrite Hs1. apply lookup_insert_eq.
  - intros Hnone. rewrite Hs1. simpl. rewrite Hnone. apply lookup_insert_eq.
  - rewrite Hs2. apply lookup_insert_eq.
  - intros k Hne. rewrite Hs2. simpl. by rewrite lookup_insert_ne.
  - intros b Hb. rewrite Hs2, Hb. simpl. destruct s as [doc act q n]. unfold with_store.
    simpl in *. by rewrite insert_id.
Qed.

Lemma toggle_twice_witness :
  let s := mkServer (<["tv" := JBool true]> defaultState) ∅ ∅ 0 in
  (toggle "tv" (toggle "tv" s).1).1 = s ∧
  store (toggle "tv" s).1 !! "tv" = Some (JBool false).
Proof.
  intros s.
  destruct (toggle_twice "tv" s) as (Hfirst & _ & _ & _ & Hback).
  - apply (bool_decide_unpack _). by vm_compute.
  - split; [by apply (Hback true) | exact Hfirst].
Defined.

Lemma alias_is_device (device deviceKey : string) :
  DEVICE_ALIASES !! device = Some deviceKey →
  deviceKey ∈ ["led1"; "led2"; "led3"; "tv"].
Proof.
  intros Hal. apply elem_of_list_to_map_2 in Hal.
  repeat (apply elem_of_cons in Hal as [[= -> ->] | Hal];
          [apply (bool_decide_unpack _); by vm_compute|]).
  by apply elem_of_nil in Hal.
Qed.

(** [GET /do/:device/:action]: an alias always resolves to one of the four
    device keys; the route writes that key and, in the same update, clears
    [kill] exactly when the value written is [true]; otherwise [kill] and
    every other child keep their values.  An unknown alias or action is
    rejected without a write. *)
Theorem doDeviceAction_effect (device act : string) (s : Server) :
  (∀ deviceKey, DEVICE_ALIASES !! device = Some deviceKey →
     act ∈ ["on"; "off"; "toggle"] →
     let newVal := if decide (act = "toggle") then negb (truthy (store s !! deviceKey))
                   else is_on act in
     let s' := (doDeviceAction device act s).1 in
     deviceKey ∈ ["led1"; "led2"; "led3"; "tv"] ∧
     (doDeviceAction device act s).2 = Ok (deviceKey, newVal) ∧
     store s' !! deviceKey = Some (JBool newVal) ∧
     store s' !! "kill" = (if newVal then Some (JBool false) else store s !! "kill") ∧
     (∀ k, k ≠ deviceKey → k ≠ "kill" → store s' !! k = store s !! k)) ∧
  (DEVICE_ALIASES !! device = None → (doDeviceAction device act s).1 = s) ∧
  (act ∉ ["on"; "off"; "toggle"] → (doDeviceAction device act s).1 = s).
Proof.
  split_and!.
  - intros deviceKey Hal Hact newVal s'.
    pose proof (alias_is_device _ _ Hal) as Hdev.
    assert (deviceKey ≠ "kill") as Hk.
    { intros ->. revert Hdev. apply (bool_decide_unpack _). by vm_compute. }
    subst s'. unfold doDeviceAction. rewrite Hal. rewrite decide_True by done.
    fold newVal. simpl. split_and!; try done.
    + rewrite lookup_db_update. destruct newVal.
      * by rewrite lookup_insert_ne, lookup_singleton_eq.
      * by rewrite lookup_singleton_eq.
    + rewrite lookup_db_update. destruct newVal.
      * by rewrite lookup_insert_eq.
      * by rewrite lookup_singleton_ne.
    + intros k Hne Hnk. rewrite lookup_db_update. destruct newVal.
      * by rewrite lookup_insert_ne, lookup_singleton_ne.
      * by rewrite lookup_singleton_ne.
  - intros Hal. unfold doDeviceAction. by rewrite Hal.
  - intros Hact. unfold doDeviceAction. destruct (DEVICE_ALIASES !! device); [|done].
    by rewrite decide_False.
Qed.

(** Bulk routes and the kill flag.  After the kill switch, each "on" route
    ([/api/all-on], [/do/all-on], [/do/lights-on]) releases [kill] in the
    update that sets the lights, while each "off" route leaves the process
    killed.  Only the [/do/all-*] routes write [tv]: [/api/all-on],
    [/api/all-off] and the lights routes leave it as stored.  None of them
    touches [mode] or [timer]. *)
Theorem bulk_routes_and_kill (s : Server) :
  let killed := (kill s).1 in
  (store (allOn killed) !! "kill" = Some (JBool false) ∧
   store (doAllOn killed) !! "kill" = Some (JBool false) ∧
   store (doLightsOn killed) !! "kill" = Some (JBool false)) ∧
  (store (allOff killed) !! "kill" = Some (JBool true) ∧
   store (doAllOff killed) !! "kill" = Some (JBool true) ∧
   store (doLightsOff killed) !! "kill" = Some (JBool true)) ∧
  (store (allOn s) !! "tv" = store s !! "tv" ∧
   store (allOff s) !! "tv" = store s !! "tv" ∧
   store (doLightsOn s) !! "tv" = store s !! "tv" ∧
   store (doLightsOff s) !! "tv" = store s !! "tv" ∧
   store (doAllOn s) !! "tv" = Some (JBool true) ∧
   store (doAllOff s) !! "tv" = Some (JBool false)) ∧
  (∀ k, k = "mode" ∨ k = "timer" →
     store (allOn s) !! k = store s !! k ∧ store (allOff s) !! k = store s !! k ∧
     store (doAllOn s) !! k = store s !! k ∧ store (doAllOff s) !! k = store s !! k ∧
     store (doLightsOn s) !! k = store s !! k ∧ store (doLightsOff s) !! k = store s !! k).
Proof.
  intros killed. subst killed. simpl.
  split_and!; rewrite ?lookup_db_update; try done.
  intros k [-> | ->]; by rewrite !lookup_db_update.
Qed.

(** [POST /api/reset] replaces the document by the default state but does
    not touch the timer queue: a countdown tracked before the reset is
    still pending after it, and is cancelled only when the watcher is
    notified of the removed [timer] child; that notification does not
    write. *)
Theorem reset_then_notify (now : Z) (s : Server) :
  store (reset s) = defaultState ∧
  activeTimers (reset s) = activeTimers s ∧
  timeouts (reset s) = timeouts s ∧
  store (notifyTimer now (reset s)) = defaultState ∧
  activeTimers (notifyTimer now (reset s)) = ∅ ∧
  (∀ k h, activeTimers s !! k = Some h → timeouts (notifyTimer now (reset s)) !! h = None).
Proof.
  split_and!; try done.
  intros k h Hk. unfold notifyTimer. simpl.
  by apply (clearAllTimers_tracked_gone (reset s) k).
Qed.

Lemma defaultState_not_empty : defaultState ≠ ∅.
Proof.
  intros Heq. assert (defaultState !! "kill" = None) as Hk by (by rewrite Heq).
  discriminate Hk.
Qed.

(** [initializeDatabase] never overwrites: a document that exists is left
    as it is, an empty one becomes the default state, running it again
    changes nothing, and afterwards [GET /api/state] returns the stored
    document, never the fallback. *)
Theorem initializeDatabase_keeps_existing (s : Server) :
  (store s ≠ ∅ → initializeDatabase s = s) ∧
  (store s = ∅ → store (initializeDatabase s) = defaultState) ∧
  initializeDatabase (initializeDatabase s) = initializeDatabase s ∧
  getState (initializeDatabase s) = store (initializeDatabase s).
Proof.
  pose proof defaultState_not_empty as Hd.
  unfold initializeDatabase, getState. split_and!.
  - intros Hne. by rewrite decide_False.
  - intros He. by rewrite decide_True.
  - destruct (decide (store s = ∅)) as [He|Hne]; simpl.
    + by rewrite decide_False.
    + by rewrite decide_False.
  - destruct (decide (store s = ∅)) as [He|Hne]; simpl; by rewrite decide_False.
Qed.

(** ** Google Home fulfillment *)

Lemma onQuery_lookup (ids : list string) (s : Server) (k : string) :
  onQuery ids s !! k =
    if decide (k ∈ ids ∧ k ≠ "__proto__") then Some (truthy_property (store s) k)
    else None.
Proof. unfold onQuery. by rewrite (lookup_js_assign_fold (truthy_property (store s))). Qed.

(** Execute, then query, for ids among the four devices the SYNC reply
    declares: after one OnOff execution for the ids of a command, a QUERY
    for those ids reports [on] for each of them and reports nothing else;
    turning on clears [kill] in the same update, turning off leaves it;
    the execution is acknowledged once.  An execution of any other command
    writes nothing and is not acknowledged. *)
Theorem execute_then_query (ids : list string) (on : bool) (s : Server) :
  Forall (λ i, i ∈ ["led1"; "led2"; "led3"; "tv"]) ids →
  let s' := (onExecute [mkCommand ids [mkExecution "action.devices.commands.OnOff" on]] s).1 in
  (∀ i, i ∈ ids → onQuery ids s' !! i = Some on) ∧
  (∀ i, i ∉ ids → onQuery ids s' !! i = None) ∧
  (on = true → store s' !! "kill" = Some (JBool false)) ∧
  (on = false → store s' !! "kill" = store s !! "kill") ∧
  (onExecute [mkCommand ids [mkExecution "action.devices.commands.OnOff" on]] s).2 =
    [(ids, on)] ∧
  (∀ name, name ≠ "action.devices.commands.OnOff" →
     onExecute [mkCommand ids [mkExecution name on]] s = (s, [])).
Proof.
  intros Hknown s'. subst s'. unfold onExecute. cbn [foldl cmd_devices cmd_execution].
  unfold executeOne at 1 2 3 4 5. cbn [exec_command exec_on fst snd].
  rewrite decide_True by done. cbn [fst snd store with_store].
  assert (∀ i, i ∈ ids → i ≠ "kill" ∧ i ≠ "__proto__") as Hplain.
  { intros i Hin. pose proof (proj1 (Forall_forall _ _) Hknown i Hin) as Hdev.
    by destruct (device_is_plain_key i Hdev) as (Hk & _ & Hp). }
  assert (∀ i, i ∈ ids →
            db_update (onOffUpdates ids on) (store s) !! i = Some (JBool on)) as Hdev.
  { intros i Hin. destruct (Hplain i Hin) as [Hk Hp].
    rewrite lookup_db_update. unfold onOffUpdates. destruct on.
    - rewrite lookup_insert_ne by done.
      rewrite (lookup_js_assign_fold (λ _, JBool true)). by rewrite decide_True.
    - rewrite (lookup_js_assign_fold (λ _, JBool false)). by rewrite decide_True. }
  split_and!.
  - intros i Hin. destruct (Hplain i Hin) as [Hk Hp].
    rewrite onQuery_lookup, decide_True by done.
    unfold truthy_property. cbn [store with_store]. by rewrite (Hdev i Hin).
  - intros i Hnin. rewrite onQuery_lookup, decide_False; [done|]. by intros [Hin _].
  - intros ->. rewrite lookup_db_update. unfold onOffUpdates.
    by rewrite lookup_insert_eq.
  - intros ->. rewrite lookup_db_update. unfold onOffUpdates.
    rewrite (lookup_js_assign_fold (λ _, JBool false)). rewrite decide_False; [done|].
    intros [Hin _]. by destruct (Hplain "kill" Hin).
  - done.
  - intros name Hname. unfold executeOne. cbn [exec_command]. by rewrite decide_False.
Qed.

Lemma execute_then_query_witness :
  let s := mkServer (<["kill" := JBool true]> defaultState) ∅ ∅ 0 in
  let s' := (onExecute [mkCommand ["led1"; "tv"]
                          [mkExecution "action.devices.commands.OnOff" true]] s).1 in
  onQuery ["led1"; "tv"] s' !! "tv" = Some true ∧
  store s' !! "kill" = Some (JBool false).
Proof.
  intros s s'.
  destruct (execute_then_query ["led1"; "tv"] true s) as (Hq & _ & Hk & _).
  - repeat (apply Forall_cons; split; [apply (bool_decide_unpack _); by vm_compute|]).
    by apply Forall_nil.
  - split; [|by apply Hk]. apply Hq. right. by left.
Defined.

(** ** ESP32 presence: the two freshness tests *)

(** After a heartbeat at [t] and any events without a further heartbeat
    (in any order, at any clock readings), a status query at [now] reports
    Online exactly when [now - t < 30000], and still reports the
    heartbeat's [lastSeen]: the reply depends on the last heartbeat and
    the query's own clock reading only, not on what the periodic check or
    earlier queries stored. *)
Theorem status_online_iff_fresh (t now : Z) (reqIp : string) (b : HeartbeatBody)
    (st0 : Esp32Status) (tr : list (Z * PresenceEvent)) :
  Forall (λ e, isHeartbeat e.2 = false) tr →
  let st := presenceRun (heartbeat t reqIp b st0) tr in
  online (espStatus now st) = bool_decide (now - t < ESP_TIMEOUT_MS) ∧
  lastSeen (espStatus now st) = Some t.
Proof.
  intros Hhb st.
  assert (lastSeen st = Some t) as Hls.
  { subst st. by rewrite presenceRun_lastSeen. }
  unfold espStatus. rewrite Hls. simpl. by rewrite Hls.
Qed.

Lemma status_online_iff_fresh_witness :
  let b := mkHeartbeat None (Some (-70)) (Some 5) None in
  let st1 := heartbeat 1000 "10.0.0.1" b initialStatus in
  let tr := [(40000, EvStatusQuery); (20000, EvTimeoutCheck)] in
  online (presenceRun st1 tr) = false ∧
  online (espStatus 30999 (presenceRun st1 tr)) = true.
Proof.
  intros b st1 tr.
  assert (Forall (λ e : Z * PresenceEvent, isHeartbeat e.2 = false) tr) as Hhb.
  { subst tr. by repeat constructor. }
  destruct (status_online_iff_fresh 1000 30999 "10.0.0.1" b initialStatus tr Hhb)
    as [Hon _].
  split; [by vm_compute | exact Hon].
Defined.

(** The two freshness tests disagree at the threshold.  Right after a
    heartbeat at [t], the periodic check at [now] keeps the status Online
    while [now - t <= 30000], whereas the status query reports Online only
    while [now - t < 30000]: exactly 30000 ms after the heartbeat the check
    leaves the status Online and the query reports Offline. *)
Theorem timeout_threshold_boundary (t now : Z) (reqIp : string) (b : HeartbeatBody)
    (st0 : Esp32Status) :
  let st1 := heartbeat t reqIp b st0 in
  online (espTimeoutCheck now st1) = bool_decide (now - t <= ESP_TIMEOUT_MS) ∧
  online (espStatus now st1) = bool_decide (now - t < ESP_TIMEOUT_MS) ∧
  online (espTimeoutCheck (t + 30000) st1) = true ∧
  online (espStatus (t + 30000) st1) = false.
Proof.
  intros st1. unfold espTimeoutCheck, espStatus, ESP_TIMEOUT_MS. simpl.
  split_and!.
  - case_decide; simpl; symmetry.
    + apply bool_decide_eq_false. lia.
    + apply bool_decide_eq_true. lia.
  - done.
  - rewrite decide_False by lia. done.
  - apply bool_decide_eq_false. lia.
Qed.

Lemma lastReading_cons (t0 : Z) (e : Z * PresenceEvent) (tr : list (Z * PresenceEvent)) :
  lastReading t0 (e :: tr) = lastReading e.1 tr.
Proof. done. Qed.

Lemma presenceStep_seen_bound (now : Z) (st : Esp32Status) (e : Z * PresenceEvent) :
  (online st = true → is_Some (lastSeen st)) →
  (∀ seen, lastSeen st = Some seen → seen <= now) →
  now <= e.1 →
  (online (presenceStep st e) = true → is_Some (lastSeen (presenceStep st e))) ∧
  (∀ seen, lastSeen (presenceStep st e) = Some seen → seen <= e.1).
Proof.
  destruct e as [now' [reqIp b| |]]; unfold presenceStep; simpl; intros Hon Hb Hle.
  - split; [by eexists|]. intros seen [= <-]. lia.
  - unfold espTimeoutCheck. destruct (lastSeen st) as [seen|] eqn:Hls.
    + case_decide; simpl; rewrite ?Hls.
      * split; [done|]. intros seen' [= <-]. specialize (Hb seen eq_refl). lia.
      * split; [by eexists|]. intros seen' [= <-]. specialize (Hb seen eq_refl). lia.
    + rewrite Hls. split; [done|]. done.
  - unfold espStatus. destruct (lastSeen st) as [seen|] eqn:Hls; simpl; rewrite ?Hls.
    + split; [by eexists|]. intros seen' [= <-]. specialize (Hb seen eq_refl). lia.
    + split; [done|]. done.
Qed.

(** Whatever heartbeats, periodic checks and status queries arrive after
    start-up, with clock readings that do not go back: the status is never
    Online without a recorded heartbeat, [lastSeen] is never later than
    the last event, and whenever the status says Offline after a heartbeat
    at least 30000 ms have passed between that heartbeat and the last
    event.  Without any heartbeat the status stays the initial one. *)
Theorem presence_invariant (t0 : Z) (tr : list (Z * PresenceEvent)) :
  clockOrdered t0 tr →
  let st := presenceRun initialStatus tr in
  (online st = true → is_Some (lastSeen st)) ∧
  (∀ seen, lastSeen st = Some seen → seen <= lastReading t0 tr) ∧
  (∀ seen, online st = false → lastSeen st = Some seen →
           ESP_TIMEOUT_MS <= lastReading t0 tr - seen) ∧
  (Forall (λ e, isHeartbeat e.2 = false) tr → st = initialStatus).
Proof.
  intros Hord st.
  assert (∀ tr now st0,
            (online st0 = true → is_Some (lastSeen st0)) →
            (∀ seen, lastSeen st0 = Some seen → seen <= now) →
            presenceInv now st0 → clockOrdered now tr →
            (online (presenceRun st0 tr) = true → is_Some (lastSeen (presenceRun st0 tr))) ∧
            (∀ seen, lastSeen (presenceRun st0 tr) = Some seen → seen <= lastReading now tr) ∧
            presenceInv (lastReading now tr) (presenceRun st0 tr)) as Hgen.
  { clear. induction tr as [|e tr IH]; intros now st0 Hon Hb Hinv Hord; [done|].
    destruct Hord as [Hle Hord]. rewrite lastReading_cons. unfold presenceRun. cbn [foldl].
    destruct (presenceStep_seen_bound now st0 e Hon Hb Hle) as [Hon' Hb'].
    apply IH; [done | done | by apply (presenceStep_inv now) | done]. }
  destruct (Hgen tr t0 initialStatus) as (Hon & Hb & Hinv); try done.
  split_and!; try done.
  - intros seen Hoff Hls. by apply Hinv.
  - intros Hhb. subst st. clear -Hhb. unfold presenceRun.
    induction tr as [|e tr IH]; [done|].
    apply Forall_cons in Hhb as [He Htr]. cbn [foldl].
    destruct e as [now [reqIp b| |]]; try done; by apply IH.
Qed.

Lemma presence_invariant_witness :
  let b := mkHeartbeat None None None None in
  let tr := [(5000, EvStatusQuery); (6000, EvHeartbeat "10.0.0.1" b);
             (40000, EvTimeoutCheck); (41000, EvHeartbeat "10.0.0.1" b);
             (80000, EvStatusQuery)] in
  online (presenceRun initialStatus tr) = false ∧
  ESP_TIMEOUT_MS <= 80000 - 41000.
Proof.
  intros b tr.
  destruct (presence_invariant 0 tr) as (_ & _ & Hoff & _).
  - subst tr. simpl. lia.
  - split; [by vm_compute|].
    apply (Hoff 41000); by vm_compute.
Defined.

(** ** Firmware animation *)

(** The wave step stays within 0..2 under every call of the engine, and a
    wave frame that is due lights exactly the output the step names, then
    advances the step cyclically and restarts the frame clock. *)
Theorem wave_step_cycles (millis1 millis2 : Z) (r1 r2 r3 : bool) (f : Firmware.State) :
  0 <= Firmware.waveStep f < 3 →
  let f' := Firmware.hardwareEngine millis1 millis2 r1 r2 r3 f in
  0 <= Firmware.waveStep f' < 3 ∧
  (Firmware.killSwitch f = false → Firmware.mode f = "wave" →
   200 <= Firmware.usub32 millis1 (Firmware.lastAnim f) →
     (Firmware.pinLED1 f', Firmware.pinLED2 f', Firmware.pinLED3 f') =
       (bool_decide (Firmware.waveStep f = 0), bool_decide (Firmware.waveStep f = 1),
        bool_decide (Firmware.waveStep f = 2)) ∧
     ((Firmware.pinLED1 f', Firmware.pinLED2 f', Firmware.pinLED3 f') = (true, false, false) ∨
      (Firmware.pinLED1 f', Firmware.pinLED2 f', Firmware.pinLED3 f') = (false, true, false) ∨
      (Firmware.pinLED1 f', Firmware.pinLED2 f', Firmware.pinLED3 f') = (false, false, true)) ∧
     Firmware.waveStep f' = (Firmware.waveStep f + 1) `mod` 3 ∧
     Firmware.lastAnim f' = millis2).
Proof.
  intros Hw f'.
  assert (Firmware.waveStep f = 0 ∨ Firmware.waveStep f = 1 ∨ Firmware.waveStep f = 2)
    as Hcases by lia.
  split.
  - subst f'. unfold Firmware.hardwareEngine.
    destruct (Firmware.killSwitch f); [simpl; lia|].
    destruct (decide (Firmware.mode f = "normal")); [simpl; lia|].
    destruct (decide (Firmware.usub32 millis1 (Firmware.lastAnim f) < 200)); [lia|].
    cbn [Firmware.mode Firmware.waveStep Firmware.writePins].
    destruct (decide (Firmware.mode f = "wave")).
    + cbn [Firmware.waveStep]. destruct Hcases as [-> | [-> | ->]]; split; by vm_compute.
    + destruct (decide (Firmware.mode f = "pulse")); [simpl; lia|].
      destruct (decide (Firmware.mode f = "disco")); simpl; lia.
  - intros Hk Hm Hdue. subst f'. unfold Firmware.hardwareEngine. rewrite Hk, Hm.
    rewrite decide_False by done. rewrite decide_False by lia.
    cbn [Firmware.mode]. rewrite decide_True by done. simpl.
    destruct Hcases as [-> | [-> | ->]]; split_and!; try done; auto.
Qed.

Lemma wave_step_cycles_witness :
  let f := Firmware.mkState true false true false "wave" 1000 2 false false true false in
  let f' := Firmware.hardwareEngine 1200 1201 false false false f in
  (Firmware.pinLED1 f', Firmware.pinLED2 f', Firmware.pinLED3 f') = (false, false, true) ∧
  Firmware.waveStep f' = 0.
Proof.
  intros f f'.
  destruct (wave_step_cycles 1200 1201 false false false f) as [_ Hframe].
  - simpl. lia.
  - destruct Hframe as (Hpins & _ & Hstep & _); [done | done | by vm_compute |].
    split; [exact Hpins | exact Hstep].
Defined.

(** Animation frames are rate limited, also across the 32-bit wrap of
    [millis()]: without kill and outside normal mode, with both counters
    in the unsigned 32-bit range, a call less than 200 ms (counted modulo
    2^32) after the last frame changes nothing at all, and any later call
    restarts the frame clock, even for a mode string the engine does not
    know. *)
Theorem animation_rate_limited (millis1 millis2 : Z) (r1 r2 r3 : bool) (f : Firmware.State) :
  Firmware.killSwitch f = false →
  Firmware.mode f ≠ "normal" →
  0 <= Firmware.lastAnim f < 2 ^ 32 →
  0 <= millis1 < 2 ^ 32 →
  let elapsed := if decide (Firmware.lastAnim f <= millis1)
                 then millis1 - Firmware.lastAnim f
                 else millis1 + 2 ^ 32 - Firmware.lastAnim f in
  let f' := Firmware.hardwareEngine millis1 millis2 r1 r2 r3 f in
  Firmware.usub32 millis1 (Firmware.lastAnim f) = elapsed ∧
  (elapsed < 200 → f' = f) ∧
  (200 <= elapsed → Firmware.lastAnim f' = millis2).
Proof.
  intros Hk Hm Hl Hmil elapsed f'.
  assert (Firmware.usub32 millis1 (Firmware.lastAnim f) = elapsed) as Hel.
  { unfold Firmware.usub32. subst elapsed. case_decide.
    - apply Z.mod_small. lia.
    - symmetry. apply (Z.mod_unique _ _ (-1)); lia. }
  split; [done|]. subst f'. unfold Firmware.hardwareEngine. rewrite Hk, Hel.
  rewrite decide_False by done. split.
  - intros Hlt. by rewrite decide_True.
  - intros Hge. rewrite decide_False by lia. cbn [Firmware.mode].
    repeat case_decide; done.
Qed.

Lemma animation_rate_limited_witness :
  let f := Firmware.mkState false false false false "pulse" 4294967196 0 false
             false false false in
  Firmware.hardwareEngine 50 50 false false false f = f ∧
  Firmware.lastAnim (Firmware.hardwareEngine 100 101 false false false f) = 101.
Proof.
  intros f.
  destruct (animation_rate_limited 50 50 false false false f) as (_ & Hidle & _);
    [done | done | simpl; lia | lia |].
  destruct (animation_rate_limited 100 101 false false false f) as (_ & _ & Hframe);
    [done | done | simpl; lia | lia |].
  split; [apply Hidle; by vm_compute | apply Hframe; by vm_compute].
Defined.

(** Pulse mode blinks all three outputs together: two frames that are
    both due drive every output to the negation of the pulse flag and then
    back to it, and leave the flag and the streamed device values as they
    were. *)
Theorem pulse_blinks_together (m1 m2 m3 m4 : Z) (r1 r2 r3 : bool) (f : Firmware.State) :
  Firmware.killSwitch f = false →
  Firmware.mode f = "pulse" →
  200 <= Firmware.usub32 m1 (Firmware.lastAnim f) →
  200 <= Firmware.usub32 m3 m2 →
  let f1 := Firmware.hardwareEngine m1 m2 r1 r2 r3 f in
  let f2 := Firmware.hardwareEngine m3 m4 r1 r2 r3 f1 in
  (Firmware.pinLED1 f1, Firmware.pinLED2 f1, Firmware.pinLED3 f1) =
    (negb (Firmware.pulse f), negb (Firmware.pulse f), negb (Firmware.pulse f)) ∧
  (Firmware.pinLED1 f2, Firmware.pinLED2 f2, Firmware.pinLED3 f2) =
    (Firmware.pulse f, Firmware.pulse f, Firmware.pulse f) ∧
  Firmware.pulse f2 = Firmware.pulse f ∧
  (Firmware.led1 f2, Firmware.led2 f2, Firmware.led3 f2) =
    (Firmware.led1 f, Firmware.led2 f, Firmware.led3 f).
Proof.
  intros Hk Hm Hdue1 Hdue2 f1 f2.
  assert (f1 = Firmware.mkState (Firmware.led1 f) (Firmware.led2 f) (Firmware.led3 f)
                 false "pulse" m2 (Firmware.waveStep f) (negb (Firmware.pulse f))
                 (negb (Firmware.pulse f)) (negb (Firmware.pulse f))
                 (negb (Firmware.pulse f))) as Hf1.
  { subst f1. unfold Firmware.hardwareEngine. rewrite Hk, Hm.
    rewrite decide_False by done. rewrite decide_False by lia.
    cbn [Firmware.mode]. rewrite decide_False by done. by rewrite decide_True. }
  subst f2. rewrite Hf1. unfold Firmware.hardwareEngine. simpl.
  rewrite decide_False by lia. simpl. by rewrite negb_involutive.
Qed.

Lemma pulse_blinks_together_witness :
  let f := Firmware.mkState true true false false "pulse" 0 0 false false false false in
  let f1 := Firmware.hardwareEngine 200 200 false false false f in
  let f2 := Firmware.hardwareEngine 400 400 false false false f1 in
  (Firmware.pinLED1 f1, Firmware.pinLED2 f1, Firmware.pinLED3 f1) = (true, true, true) ∧
  (Firmware.pinLED1 f2, Firmware.pinLED2 f2, Firmware.pinLED3 f2) = (false, false, false).
Proof.
  intros f f1 f2.
  destruct (pulse_blinks_together 200 200 400 400 false false false f)
    as (H1 & H2 & _); [done | done | by vm_compute | by vm_compute |].
  split; [exact H1 | exact H2].
Defined.
